(** * A shallow embedding of ppt-generator-streamlit

    Sources: [src/ppt_generator.py] (class [PPTGenerator]) and [src/app.py]
    (the Streamlit front end).

    Modelling choices:
    - a Python [str] is a list of ASCII characters ([str] below); the
      whitespace set of [str.strip] is Python's, restricted to ASCII;
    - a value produced by [json.loads] (or the fallback dict literal) is a
      [json] tree; a dict is the list of its items in insertion order, with
      distinct keys;
    - an exception that [except Exception] catches is a value of [exn]; code
      that may raise returns a [result];
    - python-pptx's [Presentation] is a record [pres] holding the page size
      and the list of slides; slide mutations are in place, so a slide added
      before an exception stays in the presentation;
    - the network (Groq chat completion, image download), the clock and
      [json.loads] are inputs of the model. *)

From Stdlib Require Import String Ascii List Arith ZArith Lia Bool.
Import ListNotations.
Open Scope list_scope.

(* ------------------------------------------------------------------ *)
(** ** Python strings *)

Module PyStr.

Definition str := list ascii.
Definition s2l : string -> str := list_ascii_of_string.

Definition ascii_eqb (a b : ascii) : bool := if ascii_dec a b then true else false.

Fixpoint str_eqb (a b : str) : bool :=
  match a, b with
  | [], [] => true
  | x :: a', y :: b' => ascii_eqb x y && str_eqb a' b'
  | _, _ => false
  end.

(** [str.isspace] on one ASCII character: space, \t \n \v \f \r and the
    separators \x1c-\x1f. *)
Definition is_space (c : ascii) : bool :=
  let n := nat_of_ascii c in
  (n =? 32) || ((9 <=? n) && (n <=? 13)) || ((28 <=? n) && (n <=? 31)).

Fixpoint lstrip (s : str) : str :=
  match s with
  | [] => []
  | c :: r => if is_space c then lstrip r else s
  end.

Definition rstrip (s : str) : str := rev (lstrip (rev s)).

(** [s.strip()] *)
Definition strip (s : str) : str := rstrip (lstrip s).

(** [s.lower()] on ASCII. *)
Definition lower_char (c : ascii) : ascii :=
  let n := nat_of_ascii c in
  if (65 <=? n) && (n <=? 90) then ascii_of_nat (n + 32) else c.
Definition lower (s : str) : str := map lower_char s.

(** [s.startswith(p)] *)
Fixpoint starts_with (p s : str) : bool :=
  match p, s with
  | [], _ => true
  | c :: p', d :: s' => ascii_eqb c d && starts_with p' s'
  | _ :: _, [] => false
  end.

(** [s.find(sub)]: the lowest index where [sub] occurs, [None] for -1. *)
Fixpoint find (sub s : str) : option nat :=
  if starts_with sub s then Some 0
  else match s with
       | [] => None
       | _ :: r => option_map S (find sub r)
       end.

(** [s.rfind(sub)]: the highest index where [sub] occurs, [None] for -1. *)
Fixpoint rfind (sub s : str) : option nat :=
  match s with
  | [] => if starts_with sub [] then Some 0 else None
  | _ :: r =>
      match rfind sub r with
      | Some i => Some (S i)
      | None => if starts_with sub s then Some 0 else None
      end
  end.

(** [s[i:j]] for indices [0 <= i] and [0 <= j]. *)
Definition slice (s : str) (i j : nat) : str := firstn (j - i) (skipn i s).

(** [s.split(sep)] for a non-empty separator; [fuel] bounds the number of
    pieces and is given as [length s + 1] by [split]. *)
Fixpoint split_go (fuel : nat) (sep s : str) : list str :=
  match fuel with
  | 0 => [s]
  | S f =>
      match find sep s with
      | None => [s]
      | Some i => firstn i s :: split_go f sep (skipn (i + length sep) s)
      end
  end.

Definition split (s sep : str) : list str := split_go (S (length s)) sep s.

(** [s.replace(a, b)] for one-character [a] and [b]. *)
Definition replace_char (a b : ascii) (s : str) : str :=
  map (fun c => if ascii_eqb c a then b else c) s.

(** Decimal digits of a natural number, as [str(n)] / an f-string prints it. *)
Fixpoint digits_go (fuel n : nat) (acc : str) : str :=
  match fuel with
  | 0 => acc
  | S f =>
      let acc' := ascii_of_nat (48 + n mod 10) :: acc in
      if n <? 10 then acc' else digits_go f (n / 10) acc'
  end.
Definition str_of_nat (n : nat) : str := digits_go (S n) n [].

(** The double-quote character, code 34. *)
Abbreviation DQ := (Ascii false true false false false true false false).

(** A Python string literal's text with its double quotes, as in JSON. *)
Definition quoted (x : string) : str := DQ :: s2l x ++ [DQ].

End PyStr.
Import PyStr.

(* ------------------------------------------------------------------ *)
(** ** JSON values and Python exceptions *)

Set Warnings "-register-all".

Inductive json : Type :=
| JNull
| JBool (b : bool)
| JNum (z : Z)
| JStr (s : str)
| JArr (l : list json)
| JObj (kvs : list (str * json)).

(** The exceptions raised along the paths of the program. *)
Inductive exn : Type :=
| KeyError (k : str)
| TypeError
| AttributeError
| IndexError
| ValueError (msg : str)
| JSONDecodeError
| ExternalError (msg : str).  (* raised by the network or a library *)

Inductive result (A : Type) : Type :=
| Ok (a : A)
| Err (e : exn).
Arguments Ok {A} a.
Arguments Err {A} e.

Definition bind {A B} (m : result A) (k : A -> result B) : result B :=
  match m with Ok a => k a | Err e => Err e end.
Notation "x <- m ;; k" := (bind m (fun x => k))
  (at level 61, m at next level, right associativity).

(** [try: m except Exception: h] *)
Definition try_except {A} (m : result A) (h : exn -> result A) : result A :=
  match m with Ok a => Ok a | Err e => h e end.

(** Dictionary lookup among the items of a dict. *)
Fixpoint assoc (k : str) (kvs : list (str * json)) : option json :=
  match kvs with
  | [] => None
  | (k', v) :: r => if str_eqb k k' then Some v else assoc k r
  end.

(** [d[k] = v] on a dict: replace in place, or append a new item. *)
Fixpoint dict_set (k : str) (v : json) (kvs : list (str * json)) : list (str * json) :=
  match kvs with
  | [] => [(k, v)]
  | (k', v') :: r => if str_eqb k k' then (k', v) :: r else (k', v') :: dict_set k v r
  end.

(** [bool(v)] *)
Definition truthy (v : json) : bool :=
  match v with
  | JNull => false
  | JBool b => b
  | JNum z => negb (Z.eqb z 0)
  | JStr s => negb (Nat.eqb (length s) 0)
  | JArr l => negb (Nat.eqb (length l) 0)
  | JObj kvs => negb (Nat.eqb (length kvs) 0)
  end.

(** [v.get(k, default)]: only a dict has [get]. *)
Definition py_get (v : json) (k : str) (default : json) : result json :=
  match v with
  | JObj kvs => match assoc k kvs with Some x => Ok x | None => Ok default end
  | _ => Err AttributeError
  end.

(** [v[k]] with a string key. *)
Definition py_getitem (v : json) (k : str) : result json :=
  match v with
  | JObj kvs => match assoc k kvs with Some x => Ok x | None => Err (KeyError k) end
  | _ => Err TypeError
  end.

(** [iter(v)]: a list yields its items, a str its characters, a dict its
    keys; anything else is not iterable. *)
Definition py_iter (v : json) : result (list json) :=
  match v with
  | JArr l => Ok l
  | JStr s => Ok (map (fun c => JStr [c]) s)
  | JObj kvs => Ok (map (fun kv => JStr (fst kv)) kvs)
  | _ => Err TypeError
  end.

(** [str(e)], up to the wording of library messages. *)
Definition exn_text (e : exn) : str :=
  match e with
  | KeyError k => s2l "'" ++ k ++ s2l "'"
  | TypeError => s2l "TypeError"
  | AttributeError => s2l "AttributeError"
  | IndexError => s2l "list index out of range"
  | ValueError m => m
  | JSONDecodeError => s2l "JSONDecodeError"
  | ExternalError m => m
  end.

(** [v == s] for a string literal [s]. *)
Definition eq_str (v : json) (s : str) : bool :=
  match v with JStr s' => str_eqb s' s | _ => false end.

(* ------------------------------------------------------------------ *)
(** ** PPTGenerator: the fallback content *)

(** [PPTGenerator.__init__]: the Groq client is known by its API key. *)
Record PPTGenerator := mkGenerator { client_api_key : str; model_name : str }.

Definition fallback_colors : list str :=
  [s2l "white"; s2l "light_blue"; s2l "white"; s2l "gradient"].

Definition section_bullets (topic content_name : str) : list json :=
  [ JStr (s2l "Detailed analysis of " ++ content_name ++ s2l ": " ++ topic ++
          s2l " involves multiple components including strategic planning and execution frameworks");
    JStr (s2l "Key features: Core elements include " ++ lower content_name ++
          s2l " methodology, implementation techniques, and performance metrics");
    JStr (s2l "Practical example: Case study from Fortune 500 company showing 35% improvement using these methods");
    JStr (s2l "Best practices: Industry-standard approaches for " ++ lower content_name ++
          s2l " with measurable results");
    JStr (s2l "Current trends: 2024 data shows 42% adoption rate in top organizations with positive ROI") ].

Definition fallback_title_slide (topic : str) : json :=
  JObj [ (s2l "slide_type", JStr (s2l "title"));
         (s2l "title", JStr topic);
         (s2l "subtitle", JStr (s2l "Comprehensive Professional Presentation"));
         (s2l "background_color", JStr (s2l "blue")) ].

Definition fallback_section_slide (topic : str) (i : nat) (content_name : str) : json :=
  JObj [ (s2l "slide_type", JStr (s2l "section"));
         (s2l "title", JStr content_name);
         (s2l "content", JArr (section_bullets topic content_name));
         (s2l "background_color",
           JStr (nth (i mod length fallback_colors) fallback_colors [])) ].

Definition fallback_summary_slide : json :=
  JObj [ (s2l "slide_type", JStr (s2l "summary"));
         (s2l "title", JStr (s2l "Conclusion & Recommendations"));
         (s2l "content", JArr [
            JStr (s2l "Comprehensive review of all key concepts with supporting data");
            JStr (s2l "Actionable 6-month implementation plan with milestones");
            JStr (s2l "Strategic roadmap for long-term success and scalability");
            JStr (s2l "Resource allocation and team requirements");
            JStr (s2l "Q&A and next steps for immediate action") ]);
         (s2l "background_color", JStr (s2l "blue")) ].

(** The [for i, content_name in enumerate(content_names)] loop. *)
Fixpoint fallback_sections (topic : str) (i : nat) (content_names : list str) : list json :=
  match content_names with
  | [] => []
  | c :: r => fallback_section_slide topic i c :: fallback_sections topic (S i) r
  end.

(** [PPTGenerator._create_fallback_content] *)
Definition _create_fallback_content (self : PPTGenerator) (topic : str)
    (content_names : list str) : json :=
  JObj [ (s2l "title", JStr topic);
         (s2l "slides", JArr ([fallback_title_slide topic]
                               ++ fallback_sections topic 0 content_names
                               ++ [fallback_summary_slide])) ].

(* ------------------------------------------------------------------ *)
(** ** PPTGenerator.generate_presentation_content *)

(** What [self.client.chat.completions.create(...)] gives: it raises, or it
    returns a response whose [choices[0].message.content] is a string or
    [None]. *)
Inductive llm_outcome : Type :=
| LLMRaises (e : exn)
| LLMContent (content : option str).

Definition fence_json : str := s2l "```json".
Definition fence : str := s2l "```".

(** [lst[k]] on a list of strings. *)
Definition list_index (l : list str) (k : nat) : result str :=
  match nth_error l k with Some x => Ok x | None => Err IndexError end.

(** Lines 92-95: remove a leading code fence (labeled, else unlabeled). *)
Definition strip_fence (content : str) : result str :=
  if starts_with fence_json content then
    a <- list_index (split content fence_json) 1 ;;
    b <- list_index (split a fence) 0 ;;
    Ok (strip b)
  else if starts_with fence content then
    a <- list_index (split content fence) 1 ;;
    b <- list_index (split a fence) 0 ;;
    Ok (strip b)
  else Ok content.

(** Lines 97-100: cut from the first '{' to the last '}' when both exist. *)
Definition brace_slice (content : str) : str :=
  match find (s2l "{") content, rfind (s2l "}") content with
  | Some start_brace, Some end_brace => slice content start_brace (end_brace + 1)
  | _, _ => content
  end.

(** Lines 89-100: strip, remove a leading code fence, then cut from the
    first '{' to the last '}'. *)
Definition extract_json (raw : str) : result str :=
  content <- strip_fence (strip raw) ;;
  Ok (brace_slice content).

(** ['slides' not in parsed_content or not parsed_content['slides']]; the
    membership test and the subscript raise on values that do not support
    them. *)
Definition slides_check (parsed : json) : result bool :=
  match parsed with
  | JObj kvs =>
      match assoc (s2l "slides") kvs with
      | None => Ok true
      | Some v => Ok (negb (truthy v))
      end
  | JArr l =>
      if existsb (fun v => eq_str v (s2l "slides")) l then Err TypeError else Ok true
  | JStr s =>
      if find (s2l "slides") s then Err TypeError else Ok true
  | _ => Err TypeError
  end.

Section Pipeline.

(** [json.loads]: [None] when it raises. *)
Variable json_loads : str -> option json.

Definition loads (s : str) : result json :=
  match json_loads s with Some v => Ok v | None => Err JSONDecodeError end.

(** The body of the [try] block of [generate_presentation_content]. *)
Definition generate_try (llm : llm_outcome) : result json :=
  content <- (match llm with
              | LLMRaises e => Err e
              | LLMContent None => Err AttributeError  (* None.strip() *)
              | LLMContent (Some s) => Ok s
              end) ;;
  content <- extract_json content ;;
  parsed_content <- loads content ;;
  bad <- slides_check parsed_content ;;
  if bad then Err (ValueError (s2l "Invalid JSON structure")) else Ok parsed_content.

(** [PPTGenerator.generate_presentation_content]; the prompt only feeds the
    LLM, whose answer is the input [llm]. *)
Definition generate_presentation_content (self : PPTGenerator) (topic : str)
    (content_names : list str) (llm : llm_outcome) : result json :=
  try_except (generate_try llm)
    (fun _ => Ok (_create_fallback_content self topic content_names)).

End Pipeline.

(* ------------------------------------------------------------------ *)
(** ** A [json.loads] for concrete runs

    A recursive-descent parser for the JSON fragment used by the concrete
    runs below: objects, arrays, [true]/[false]/[null], integers, and strings
    with the two-character escapes of quote, backslash, slash, b, f, n, r
    and t. It rejects floats and [\u]
    escapes (which [json.loads] accepts), so it agrees with [json.loads]
    wherever it returns [Some]. Objects keep the last value of a repeated
    key, as a Python dict does. *)
Module JsonFragment.

Definition json_ws (c : ascii) : bool :=
  let n := nat_of_ascii c in (n =? 32) || (n =? 9) || (n =? 10) || (n =? 13).

Fixpoint skip_ws (s : str) : str :=
  match s with
  | c :: r => if json_ws c then skip_ws r else s
  | [] => []
  end.

Definition escape (c : ascii) : option ascii :=
  match c with
  | DQ => Some DQ
  | "\"%char => Some "\"%char
  | "/"%char => Some "/"%char
  | "b"%char => Some (ascii_of_nat 8)
  | "f"%char => Some (ascii_of_nat 12)
  | "n"%char => Some (ascii_of_nat 10)
  | "r"%char => Some (ascii_of_nat 13)
  | "t"%char => Some (ascii_of_nat 9)
  | _ => None
  end.

(** The characters of a string literal after its opening quote. *)
Fixpoint string_body (s : str) (acc : str) : option (str * str) :=
  match s with
  | [] => None
  | c :: r =>
      if ascii_eqb c DQ then Some (rev acc, r)
      else if ascii_eqb c "\"%char then
        match r with
        | e :: r' => match escape e with
                     | Some c' => string_body r' (c' :: acc)
                     | None => None
                     end
        | [] => None
        end
      else if nat_of_ascii c <? 32 then None
      else string_body r (c :: acc)
  end.

Definition is_digit (c : ascii) : bool :=
  let n := nat_of_ascii c in (48 <=? n) && (n <=? 57).

Fixpoint digit_run (s : str) (acc : Z) : Z * str :=
  match s with
  | c :: r => if is_digit c
              then digit_run r (acc * 10 + Z.of_nat (nat_of_ascii c - 48))%Z
              else (acc, s)
  | [] => (acc, [])
  end.

(** An integer: [0] or a non-zero digit followed by digits; a following
    '.', 'e' or 'E' (a float) is rejected. *)
Definition number (s : str) : option (Z * str) :=
  let '(neg, s) := match s with
                   | "-"%char :: r => (true, r)
                   | _ => (false, s)
                   end in
  let r := match s with
           | "0"%char :: r => Some (0%Z, r)
           | c :: _ => if is_digit c then Some (digit_run s 0%Z) else None
           | [] => None
           end in
  match r with
  | Some (z, rest) =>
      match rest with
      | c :: _ => if ascii_eqb c "."%char || ascii_eqb c "e"%char
                     || ascii_eqb c "E"%char then None
                  else Some ((if neg then - z else z)%Z, rest)
      | [] => Some ((if neg then - z else z)%Z, rest)
      end
  | None => None
  end.

Fixpoint value (fuel : nat) (s : str) : option (json * str) :=
  match fuel with
  | 0 => None
  | S f =>
      match skip_ws s with
      | "{"%char :: r =>
          match skip_ws r with
          | "}"%char :: r' => Some (JObj [], r')
          | _ => members f r []
          end
      | "["%char :: r =>
          match skip_ws r with
          | "]"%char :: r' => Some (JArr [], r')
          | _ => elements f r []
          end
      | DQ :: r =>
          match string_body r [] with
          | Some (x, r') => Some (JStr x, r')
          | None => None
          end
      | "t"%char :: "r"%char :: "u"%char :: "e"%char :: r => Some (JBool true, r)
      | "f"%char :: "a"%char :: "l"%char :: "s"%char :: "e"%char :: r => Some (JBool false, r)
      | "n"%char :: "u"%char :: "l"%char :: "l"%char :: r => Some (JNull, r)
      | s' => match number s' with
              | Some (z, r) => Some (JNum z, r)
              | None => None
              end
      end
  end
with elements (fuel : nat) (s : str) (acc : list json) : option (json * str) :=
  match fuel with
  | 0 => None
  | S f =>
      match value f s with
      | Some (v, r) =>
          match skip_ws r with
          | ","%char :: r' => elements f r' (v :: acc)
          | "]"%char :: r' => Some (JArr (rev (v :: acc)), r')
          | _ => None
          end
      | None => None
      end
  end
with members (fuel : nat) (s : str) (acc : list (str * json)) : option (json * str) :=
  match fuel with
  | 0 => None
  | S f =>
      match skip_ws s with
      | DQ :: r =>
          match string_body r [] with
          | Some (k, r1) =>
              match skip_ws r1 with
              | ":"%char :: r2 =>
                  match value f r2 with
                  | Some (v, r3) =>
                      match skip_ws r3 with
                      | ","%char :: r4 => members f r4 (dict_set k v acc)
                      | "}"%char :: r4 => Some (JObj (dict_set k v acc), r4)
                      | _ => None
                      end
                  | None => None
                  end
              | _ => None
              end
          | None => None
          end
      | _ => None
      end
  end.

(** [json.loads(s)] on the fragment: one value, then only whitespace. *)
Definition loads_fragment (s : str) : option json :=
  match value (3 * length s + 3) s with
  | Some (v, r) => match skip_ws r with [] => Some v | _ => None end
  | None => None
  end.

End JsonFragment.

(* ------------------------------------------------------------------ *)
(** ** Observations on the generated content *)

(** [d.get(k)] on a slide descriptor, [None] when absent or not a dict. *)
Definition field (d : json) (k : str) : option json :=
  match d with JObj kvs => assoc k kvs | _ => None end.

(** The [slides] list of a content dict. *)
Definition slides_of (v : json) : list json :=
  match field v (s2l "slides") with Some (JArr l) => l | _ => [] end.

(** The structural check passes: [slides] is present and truthy. *)
Definition has_nonempty_slides (v : json) : bool :=
  match field v (s2l "slides") with Some x => truthy x | None => false end.

(** The parse stage of the pipeline: extraction then [json.loads]. *)
Definition parse_response (json_loads : str -> option json) (raw : str) : result json :=
  c <- extract_json raw ;; loads json_loads c.

(** Character classes for the text around an embedded JSON payload. *)
Definition no_char (c : ascii) (s : str) : bool := forallb (fun x => negb (ascii_eqb x c)) s.
Definition brace_free (s : str) : bool := no_char "{"%char s && no_char "}"%char s.
(** Text with no brace and no backtick (a newline, a language tag). *)
Definition plain_text (s : str) : bool := brace_free s && no_char "`"%char s.
Definition all_ticks (s : str) : bool := forallb (fun x => ascii_eqb x "`"%char) s.
Definition all_space (s : str) : bool := forallb is_space s.

(** No position of [s] can start a "```", whatever follows [s]. *)
Fixpoint no_tick3 (s : str) : bool :=
  match s with
  | [] => true
  | c :: r => negb (all_ticks (firstn 3 (c :: r))) && no_tick3 r
  end.

(** The text of a JSON object: '{', its inside [m], '}'. *)
Definition json_object_text (m : str) : str := "{"%char :: m ++ ["}"%char].

(** A request the form accepts: stripped topic of at least 3 characters,
    3 to 10 sections, none blank. *)
Definition valid_request (topic : str) (sections : list str) : Prop :=
  3 <= length (strip topic) /\ 3 <= length sections <= 10 /\
  Forall (fun s => strip s <> []) sections.

Definition cloud_topic : str := s2l "Cloud Security".
Definition cloud_sections : list str := [s2l "Overview"; s2l "Threats"; s2l "Defenses"].
Definition gen0 : PPTGenerator := mkGenerator (s2l "gsk_0123456789") (s2l "llama3-70b-8192").

(* ------------------------------------------------------------------ *)
(** ** Rendering with python-pptx *)

Record RGBColor := mkRGB { red : Z; green : Z; blue : Z }.

(** A slide as the code fills it: its layout, background fill, title and
    subtitle text, bullet paragraphs and whether a picture was embedded.
    Fonts, sizes and alignment are set by assignments that cannot fail and
    are left out. *)
Record slide := mkSlide {
  layout : nat;
  background : option RGBColor;
  title_text : option str;
  subtitle_text : option str;
  body : list str;
  picture : bool }.

(** A [Presentation] object: page size in EMU and the slides. *)
Record pres := mkPres { slide_width : Z; slide_height : Z; slides : list slide }.

(** The state the rendering code acts on: the presentation being built,
    what was printed, and the files written by [presentation.save]. *)
Record world := mkWorld { doc : pres; stdout : list str; files : list (str * pres) }.

(** [pptx.util.Inches]: [num/den] inches in EMU. *)
Definition Inches (num den : Z) : Z := (num * 914400 / den)%Z.

(** [Presentation()] with the default template (4:3, 10in x 7.5in). *)
Definition Presentation : pres := mkPres (Inches 10 1) (Inches 15 2) [].

(** What happens to the picture of a content slide: [download_image] gives
    [None] (any failure, swallowed), or the picture is embedded, or
    [add_picture] raises, or [os.unlink] raises after the picture was
    added; the last two are caught and printed. *)
Inductive image_outcome := NoImage | Embedded | EmbedFailed | EmbeddedUnlinkFailed.

(** The state-and-exception monad of the rendering code: state changes made
    before an exception are kept. *)
Definition M (A : Type) := world -> world * result A.

Definition retM {A} (a : A) : M A := fun w => (w, Ok a).
Definition bindM {A B} (m : M A) (k : A -> M B) : M B :=
  fun w => match m w with
           | (w', Ok a) => k a w'
           | (w', Err e) => (w', Err e)
           end.
Definition liftR {A} (r : result A) : M A := fun w => (w, r).
Definition tryM {A} (m : M A) (h : exn -> M A) : M A :=
  fun w => match m w with
           | (w', Err e) => h e w'
           | r => r
           end.
Notation "x <-- m ;; k" := (bindM m (fun x => k))
  (at level 61, m at next level, right associativity).
Notation "m ;;; k" := (bindM m (fun _ => k)) (at level 61, right associativity).

Definition print (s : str) : M unit :=
  fun w => (mkWorld (doc w) (stdout w ++ [s]) (files w), Ok tt).

Definition set_doc (p : pres) : M unit :=
  fun w => (mkWorld p (stdout w) (files w), Ok tt).

Definition modify_doc (f : pres -> pres) : M unit :=
  fun w => (mkWorld (f (doc w)) (stdout w) (files w), Ok tt).

(** [presentation.slides.add_slide(layout)] *)
Definition add_slide (l : nat) : M unit :=
  modify_doc (fun p => mkPres (slide_width p) (slide_height p)
                          (slides p ++ [mkSlide l None None None [] false])).

Fixpoint map_last {A} (f : A -> A) (l : list A) : list A :=
  match l with
  | [] => []
  | [x] => [f x]
  | x :: r => x :: map_last f r
  end.

(** A change to the slide just added ([slide] in the builders). *)
Definition modify_slide (f : slide -> slide) : M unit :=
  modify_doc (fun p => mkPres (slide_width p) (slide_height p) (map_last f (slides p))).

Definition set_background (c : RGBColor) (s : slide) : slide :=
  mkSlide (layout s) (Some c) (title_text s) (subtitle_text s) (body s) (picture s).
Definition set_title (t : str) (s : slide) : slide :=
  mkSlide (layout s) (background s) (Some t) (subtitle_text s) (body s) (picture s).
Definition set_subtitle (t : str) (s : slide) : slide :=
  mkSlide (layout s) (background s) (title_text s) (Some t) (body s) (picture s).
Definition add_paragraph (t : str) (s : slide) : slide :=
  mkSlide (layout s) (background s) (title_text s) (subtitle_text s) (body s ++ [t]) (picture s).
Definition set_picture (s : slide) : slide :=
  mkSlide (layout s) (background s) (title_text s) (subtitle_text s) (body s) true.

(** Assigning [.text] in python-pptx calls [text.split]: only a str is
    accepted. *)
Definition text_of (v : json) : result str :=
  match v with JStr s => Ok s | _ => Err AttributeError end.

Definition white : RGBColor := mkRGB 255 255 255.

Definition background_colors : list (str * RGBColor) :=
  [ (s2l "blue", mkRGB 0 84 147);
    (s2l "light_blue", mkRGB 220 240 255);
    (s2l "white", mkRGB 255 255 255);
    (s2l "dark", mkRGB 34 40 49);
    (s2l "gradient", mkRGB 240 248 255) ].

Fixpoint lookup_color (k : str) (l : list (str * RGBColor)) : option RGBColor :=
  match l with
  | [] => None
  | (k', c) :: r => if str_eqb k k' then Some c else lookup_color k r
  end.

(** [PPTGenerator.get_background_color]: [colors.get(color_name,
    colors['white'])]; a list or dict key is unhashable. *)
Definition get_background_color (color_name : json) : result RGBColor :=
  match color_name with
  | JStr s => match lookup_color s background_colors with
              | Some c => Ok c
              | None => Ok white
              end
  | JArr _ | JObj _ => Err TypeError
  | _ => Ok white
  end.

(** Fill the background from [slide_data.get('background_color', dflt)]. *)
Definition fill_background (slide_data : json) (dflt : str) : M unit :=
  c <-- liftR (py_get slide_data (s2l "background_color") (JStr dflt)) ;;
  rgb <-- liftR (get_background_color c) ;;
  modify_slide (set_background rgb).

Definition fill_title (slide_data : json) : M unit :=
  t <-- liftR (py_getitem slide_data (s2l "title")) ;;
  s <-- liftR (text_of t) ;;
  modify_slide (set_title s).

(** [for i, bullet_point in enumerate(items): p.text = bullet_point ...] *)
Fixpoint fill_bullets (items : list json) : M unit :=
  match items with
  | [] => retM tt
  | b :: r => s <-- liftR (text_of b) ;; modify_slide (add_paragraph s) ;;; fill_bullets r
  end.

Definition fill_body (slide_data : json) : M unit :=
  c <-- liftR (py_get slide_data (s2l "content") (JArr [])) ;;
  items <-- liftR (py_iter c) ;;
  fill_bullets items.

Section Render.

(** The outcome of the image step for each slide index. *)
Variable image_at : nat -> image_outcome.

(** [PPTGenerator._create_title_slide] (layout 0 has a subtitle
    placeholder). *)
Definition _create_title_slide (slide_data : json) : M unit :=
  add_slide 0 ;;;
  fill_background slide_data (s2l "blue") ;;;
  fill_title slide_data ;;;
  sub <-- liftR (py_get slide_data (s2l "subtitle") (JStr [])) ;;
  s <-- liftR (text_of sub) ;;
  modify_slide (set_subtitle s).

(** [PPTGenerator._create_content_slide] (layout 1 has a body placeholder). *)
Definition _create_content_slide (slide_data : json) (slide_index : nat) : M unit :=
  add_slide 1 ;;;
  fill_background slide_data (s2l "white") ;;;
  fill_title slide_data ;;;
  fill_body slide_data ;;;
  match image_at slide_index with
  | NoImage => retM tt
  | Embedded => modify_slide set_picture
  | EmbedFailed => print (s2l "Image error")
  | EmbeddedUnlinkFailed => modify_slide set_picture ;;; print (s2l "Image error")
  end.

(** [PPTGenerator._create_summary_slide] *)
Definition _create_summary_slide (slide_data : json) : M unit :=
  add_slide 1 ;;;
  fill_background slide_data (s2l "light_blue") ;;;
  fill_title slide_data ;;;
  fill_body slide_data.

(** [PPTGenerator.create_slide] *)
Definition create_slide (slide_data : json) (slide_index : nat) : M unit :=
  slide_type <-- liftR (py_get slide_data (s2l "slide_type") (JStr (s2l "section"))) ;;
  if eq_str slide_type (s2l "title") then _create_title_slide slide_data
  else if eq_str slide_type (s2l "summary") then _create_summary_slide slide_data
  else _create_content_slide slide_data slide_index.

(** The [for i, slide_data in enumerate(...)] loop with its per-slide
    [try]/[except]. *)
Fixpoint slide_loop (items : list json) (i : nat) : M unit :=
  match items with
  | [] => retM tt
  | slide_data :: r =>
      tryM (create_slide slide_data i)
           (fun e => print (s2l "Error creating slide " ++ str_of_nat (i + 1) ++ s2l ": "
                             ++ exn_text e)) ;;;
      slide_loop r (S i)
  end.

(** [presentation.save(output_path)]; [save_error] is what the file system
    raises, if anything. *)
Definition save (save_error : option exn) (output_path : str) : M unit :=
  match save_error with
  | Some e => liftR (Err e)
  | None => fun w => (mkWorld (doc w) (stdout w) (files w ++ [(output_path, doc w)]), Ok tt)
  end.

(** [PPTGenerator.create_powerpoint] *)
Definition create_powerpoint (save_error : option exn) (presentation_data : json)
    (output_path : str) : M unit :=
  set_doc Presentation ;;;
  modify_doc (fun p => mkPres (Inches 10 1) (slide_height p) (slides p)) ;;;
  modify_doc (fun p => mkPres (slide_width p) (Inches 15 2) (slides p)) ;;;
  sl <-- liftR (py_getitem presentation_data (s2l "slides")) ;;
  items <-- liftR (py_iter sl) ;;
  slide_loop items 0 ;;;
  save save_error output_path.

End Render.

(* ------------------------------------------------------------------ *)
(** ** The whole generation and the Streamlit app *)

(** What the outside world answers during one generation. *)
Record env := mkEnv {
  llm : llm_outcome;                 (* Groq chat completion *)
  image_at : nat -> image_outcome;   (* image download and embedding *)
  save_error : option exn;           (* presentation.save *)
  unix_time : nat;                   (* int(time.time()) *)
  now_stamp : str;                   (* datetime.now().strftime(...) *)
  groq_init : result unit }.         (* Groq(api_key=...) *)

Section Generation.

Variable json_loads : str -> option json.
Variable ev : env.

(** [PPTGenerator.create_presentation] *)
Definition create_presentation (self : PPTGenerator) (topic : str)
    (content_names : list str) (output_file : option str) : M str :=
  presentation_data <-- liftR (generate_presentation_content json_loads self topic
                                 content_names (llm ev)) ;;
  let output_file :=
    match output_file with
    | Some ((_ :: _) as f) => f
    | _ => s2l "professional_" ++ replace_char " "%char "_"%char topic ++ s2l "_"
             ++ str_of_nat (unix_time ev) ++ s2l ".pptx"
    end in
  create_powerpoint (image_at ev) (save_error ev) presentation_data output_file ;;;
  retM output_file.

(** The keys of [st.session_state] that [generate_presentation] writes,
    plus the messages shown by [st.error]. *)
Record session := mkSession {
  presentation_generated : bool;
  generating : bool;
  generated_file_path : option str;
  errors_shown : list str }.

(** [generate_presentation] in app.py: returns the output path, or [None]
    after showing an error. *)
Definition generate_presentation (topic : str) (content_sections : list str)
    (api_key model : str) (ss : session) (w : world)
    : session * world * result (option str) :=
  let ss1 := mkSession (presentation_generated ss) true (generated_file_path ss)
                       (errors_shown ss) in
  let output_filename := s2l "professional_" ++ replace_char " "%char "_"%char topic
                         ++ s2l "_" ++ now_stamp ev ++ s2l ".pptx" in
  let run : world * result str :=
    match groq_init ev with
    | Err e => (w, Err e)
    | Ok _ => create_presentation (mkGenerator api_key model) topic content_sections
                (Some output_filename) w
    end in
  match run with
  | (w', Ok output_path) =>
      (mkSession true false (Some output_path) (errors_shown ss1), w', Ok (Some output_path))
  | (w', Err e) =>
      (mkSession (presentation_generated ss1) false (generated_file_path ss1)
                 (errors_shown ss1 ++ [s2l "Error generating presentation"]),
       w', Ok None)
  end.

End Generation.

(** Python values met by the validation expression of [main]. *)
Inductive pyval := PStr (s : str) | PBool (b : bool).

Definition pv_truthy (v : pyval) : bool :=
  match v with PStr s => negb (Nat.eqb (length s) 0) | PBool b => b end.

(** Python's [a and b]: [a] when falsy, otherwise [b]. *)
Definition py_and (a b : pyval) : pyval := if pv_truthy a then b else a.

(** [is_valid] in [main] (lines 143-145), a left-nested [and] chain. *)
Definition is_valid (topic api_key : str) (content_sections : list str) : pyval :=
  py_and (py_and (py_and (py_and (PStr topic) (PBool (3 <=? length (strip topic))))
                         (PStr api_key))
                 (PBool (10 <=? length (strip api_key))))
         (PBool (forallb (fun section => negb (Nat.eqb (length (strip section)) 0))
                         content_sections)).

(** [disabled=not is_valid or st.session_state.generating] *)
Definition submit_disabled (topic api_key : str) (content_sections : list str)
    (generating : bool) : bool :=
  negb (pv_truthy (is_valid topic api_key content_sections)) || generating.

(* ------------------------------------------------------------------ *)
(** ** Observations on the rendered document *)

(** A descriptor that is a dict (for which [slide_data.get] works). *)
Definition is_dict (v : json) : bool :=
  match v with JObj _ => true | _ => false end.

(** From [w] to [w']: page size and written files unchanged, [n] slides
    appended to the presentation. *)
Definition shape (n : nat) (w w' : world) : Prop :=
  slide_width (doc w') = slide_width (doc w) /\
  slide_height (doc w') = slide_height (doc w) /\
  length (slides (doc w')) = length (slides (doc w)) + n /\
  files w' = files w.

(** A rendering step that appends [n] slides, whether it raises or not. *)
Definition grows {A} (n : nat) (m : M A) : Prop := forall w, shape n w (fst (m w)).

(** A rendering step that never raises. *)
Definition total {A} (m : M A) : Prop := forall w, exists a, snd (m w) = Ok a.

(** The line printed by the [except] of the slide loop. *)
Definition slide_error_line (i : nat) (e : exn) : str :=
  s2l "Error creating slide " ++ str_of_nat (i + 1) ++ s2l ": " ++ exn_text e.

(* ------------------------------------------------------------------ *)
(** ** Inputs of the concrete runs *)

Definition nl : str := [ascii_of_nat 10].

Definition payload_inside : str :=
  quoted "slides" ++ s2l ": [{" ++ quoted "slide_type" ++ s2l ": " ++ quoted "title" ++ s2l ", "
  ++ quoted "title" ++ s2l ": " ++ quoted "Cloud" ++ s2l "}]".

(** An LLM answer with a single title slide. *)
Definition one_slide_response : str :=
  s2l "{" ++ quoted "slides" ++ s2l ": [{" ++ quoted "slide_type" ++ s2l ": " ++ quoted "title"
  ++ s2l ", " ++ quoted "title" ++ s2l ": " ++ quoted "Only" ++ s2l "}]}".

(** A deck whose only descriptor has no [title] key. *)
Definition untitled_deck : json :=
  JObj [ (s2l "slides", JArr [JObj [(s2l "slide_type", JStr (s2l "title"))]]) ].

Definition env_with (l : llm_outcome) : env :=
  mkEnv l (fun _ => NoImage) None 42 (s2l "20261017_120000") (Ok tt).

Definition world0 : world := mkWorld Presentation [] [].

(** A session after an earlier successful generation. *)
Definition prior_session : session :=
  mkSession true false (Some (s2l "professional_Old_20261016_090000.pptx")) [].

(** The LLM is unreachable and the disk is full. *)
Definition env_save_fails : env :=
  mkEnv (LLMRaises (ExternalError (s2l "connection refused"))) (fun _ => NoImage)
        (Some (ExternalError (s2l "No space left on device"))) 42 (s2l "20261017_120000") (Ok tt).

(** A section descriptor whose [content] is a str, not a list. *)
Definition string_content_slide : json :=
  JObj [ (s2l "slide_type", JStr (s2l "section")); (s2l "title", JStr (s2l "Tools"));
         (s2l "content", JStr (s2l "AI")) ].

(* ------------------------------------------------------------------ *)
(** ** What a slide builder reads from its descriptor *)

(** [get_background_color] on a string. *)
Definition color_of (s : str) : RGBColor :=
  match lookup_color s background_colors with Some c => c | None => white end.

(** A string field, or [dflt] when absent. *)
Definition str_or (v : option json) (dflt : str) : str :=
  match v with Some (JStr s) => s | _ => dflt end.

Definition is_str (v : json) : bool := match v with JStr _ => true | _ => false end.

(** The paragraphs [enumerate(slide_data.get('content', []))] gives: the
    items of a list, the characters of a str, the keys of a dict. *)
Definition bullet_texts (v : option json) : list str :=
  match v with
  | Some (JArr l) => map (fun x => match x with JStr s => s | _ => [] end) l
  | Some (JStr s) => map (fun c => [c]) s
  | Some (JObj kvs) => map fst kvs
  | _ => []
  end.

Definition opt_str_ok (v : option json) : bool :=
  match v with None => true | Some x => is_str x end.

Definition bullets_ok (v : option json) : bool :=
  match v with
  | None => true
  | Some (JArr l) => forallb is_str l
  | Some (JStr _) | Some (JObj _) => true
  | Some _ => false
  end.

(** A descriptor every builder renders without raising: a dict with a str
    [title], a str [background_color] and [subtitle] when present, and a
    [content] that is a list of str, a str or a dict when present. *)
Definition renderable (d : json) : bool :=
  match d with
  | JObj kvs =>
      match assoc (s2l "title") kvs with Some (JStr _) => true | _ => false end &&
      opt_str_ok (assoc (s2l "background_color") kvs) &&
      opt_str_ok (assoc (s2l "subtitle") kvs) &&
      bullets_ok (assoc (s2l "content") kvs)
  | _ => false
  end.

Definition slide_type_of (d : json) : json :=
  match field d (s2l "slide_type") with Some v => v | None => JStr (s2l "section") end.

Definition image_picture (o : image_outcome) : bool :=
  match o with Embedded | EmbeddedUnlinkFailed => true | _ => false end.

Definition image_log (o : image_outcome) : list str :=
  match o with EmbedFailed | EmbeddedUnlinkFailed => [s2l "Image error"] | _ => [] end.

(** The slide a renderable descriptor gives, field by field. *)
Definition rendered_slide (img : nat -> image_outcome) (d : json) (i : nat) : slide :=
  let title := Some (str_or (field d (s2l "title")) []) in
  let bg dflt := Some (color_of (str_or (field d (s2l "background_color")) (s2l dflt))) in
  if eq_str (slide_type_of d) (s2l "title") then
    mkSlide 0 (bg "blue"%string) title (Some (str_or (field d (s2l "subtitle")) [])) [] false
  else if eq_str (slide_type_of d) (s2l "summary") then
    mkSlide 1 (bg "light_blue"%string) title None (bullet_texts (field d (s2l "content"))) false
  else
    mkSlide 1 (bg "white"%string) title None (bullet_texts (field d (s2l "content")))
            (image_picture (img i)).

(** What rendering a renderable descriptor prints. *)
Definition rendered_log (img : nat -> image_outcome) (d : json) (i : nat) : list str :=
  if eq_str (slide_type_of d) (s2l "title") then []
  else if eq_str (slide_type_of d) (s2l "summary") then []
  else image_log (img i).

Fixpoint rendered_slides (img : nat -> image_outcome) (items : list json) (i : nat)
    : list slide :=
  match items with
  | [] => []
  | d :: r => rendered_slide img d i :: rendered_slides img r (S i)
  end.

Fixpoint rendered_logs (img : nat -> image_outcome) (items : list json) (i : nat)
    : list str :=
  match items with
  | [] => []
  | d :: r => rendered_log img d i ++ rendered_logs img r (S i)
  end.

(** [w] with [new] slides appended and [out] printed. *)
Definition extend (w : world) (new : list slide) (out : list str) : world :=
  mkWorld (mkPres (slide_width (doc w)) (slide_height (doc w)) (slides (doc w) ++ new))
          (stdout w ++ out) (files w).

(* ------------------------------------------------------------------ *)
(** ** The prompt's section list *)

(** [sep.join(l)] *)
Fixpoint join (sep : str) (l : list str) : str :=
  match l with
  | [] => []
  | [x] => x
  | x :: r => x ++ sep ++ join sep r
  end.

(** [content_list = "\n".join([f"- {name}" for name in content_names])] *)
Definition content_list (content_names : list str) : str :=
  join [ascii_of_nat 10] (map (fun name => s2l "- " ++ name) content_names).

(* ------------------------------------------------------------------ *)
(** ** [st.session_state] and the section inputs of [main] *)

(** The keys [initialize_session_state] looks at, each absent or set. *)
Record st_session := mkSt {
  st_presentation_generated : option bool;
  st_content_sections : option (list str);
  st_generating : option bool;
  st_generated_file_path : option (option str) }.

Definition default_sections : list str :=
  [s2l "Overview"; s2l "Key Concepts"; s2l "Implementation"; s2l "Case Studies";
   s2l "Conclusion"].

(** [initialize_session_state] in app.py *)
Definition initialize_session_state (ss : st_session) : st_session :=
  let ss := match st_presentation_generated ss with
            | None => mkSt (Some false) (st_content_sections ss) (st_generating ss)
                           (st_generated_file_path ss)
            | Some _ => ss end in
  let ss := match st_content_sections ss with
            | None => mkSt (st_presentation_generated ss) (Some default_sections)
                           (st_generating ss) (st_generated_file_path ss)
            | Some _ => ss end in
  let ss := match st_generating ss with
            | None => mkSt (st_presentation_generated ss) (st_content_sections ss)
                           (Some false) (st_generated_file_path ss)
            | Some _ => ss end in
  match st_generated_file_path ss with
  | None => mkSt (st_presentation_generated ss) (st_content_sections ss)
                 (st_generating ss) (Some None)
  | Some _ => ss
  end.

(** [f"Section {i+1}"] *)
Definition section_name (i : nat) : str := s2l "Section " ++ str_of_nat (i + 1).

(** The "Adjust sections" block of [main]: append [Section {i+1}] for the
    missing positions, or keep the first [num_sections]. *)
Definition adjust_sections (cs : list str) (num_sections : nat) : list str :=
  if negb (length cs =? num_sections) then
    if length cs <? num_sections then
      cs ++ map section_name (seq (length cs) (num_sections - length cs))
    else firstn num_sections cs
  else cs.

(** [l[i] = x] for an index in range. *)
Fixpoint list_set {A} (l : list A) (i : nat) (x : A) : list A :=
  match l, i with
  | [], _ => []
  | _ :: r, 0 => x :: r
  | y :: r, S j => y :: list_set r j x
  end.

(** The [for i in range(num_sections)] loop: [widget i] is what the text
    input with key [section_{i}] holds, [None] before the user typed in it
    (then [st.text_input] returns its [value]). Returns the session list and
    [content_sections]. *)
Fixpoint section_inputs (widget : nat -> option str) (is : list nat)
    (cs acc : list str) : list str * list str :=
  match is with
  | [] => (cs, acc)
  | i :: r =>
      let value := if i <? length cs then nth i cs [] else [] in
      let section := match widget i with Some s => s | None => value end in
      let cs' := if i <? length cs then list_set cs i section else cs in
      section_inputs widget r cs' (acc ++ [section])
  end.

(** The sections part of one run of [main], from the session list and the
    slider value: the new session list and [content_sections]. *)
Definition sections_run (widget : nat -> option str) (cs : list str) (num_sections : nat)
    : list str * list str :=
  section_inputs widget (seq 0 num_sections) (adjust_sections cs num_sections) [].


(* ------------------------------------------------------------------ *)
(** ** Lemmas on the string primitives and the pipeline *)

Lemma fallback_sections_length : forall t k cs,
  length (fallback_sections t k cs) = length cs.
Proof. intros t k cs; revert k; induction cs; intros k; simpl; auto. Qed.

Lemma fallback_sections_nth : forall t cs k i,
  i < length cs ->
  nth i (fallback_sections t k cs) JNull = fallback_section_slide t (k + i) (nth i cs []).
Proof.
  intros t cs; induction cs as [|c cs IH]; intros k i Hi; simpl in *; [lia|].
  destruct i as [|i]; [now rewrite Nat.add_0_r|].
  rewrite IH by lia. f_equal. lia.
Qed.

Lemma split_go_cons : forall f sep s, exists x l, split_go f sep s = x :: l.
Proof. intros [|f] sep s; simpl; [eauto|]. destruct (find sep s); eauto. Qed.

Lemma split_cons : forall s sep, exists x l, split s sep = x :: l.
Proof. intros; apply split_go_cons. Qed.

Lemma extract_json_total : forall raw, exists c, extract_json raw = Ok c.
Proof.
  intros raw. unfold extract_json, strip_fence.
  set (content := strip raw).
  assert (Hsplit : forall s sep, sep <> [] -> starts_with sep s = true ->
                   exists a b l, split s sep = a :: b :: l).
  { intros s sep Hne Hs. unfold split. simpl.
    destruct sep as [|c sep']; [congruence|].
    assert (Hf : find (c :: sep') s = Some 0).
    { destruct s; simpl in *; [discriminate| now rewrite Hs]. }
    rewrite Hf. simpl.
    match goal with |- context [split_go ?f ?sp ?x] =>
      destruct (split_go_cons f sp x) as (y & l & ->) end.
    eauto. }
  destruct (starts_with fence_json content) eqn:H1.
  - destruct (Hsplit content fence_json ltac:(discriminate) H1) as (a & b & l & ->).
    simpl. destruct (split_cons b fence) as (x & l' & ->). simpl. eauto.
  - destruct (starts_with fence content) eqn:H2.
    + destruct (Hsplit content fence ltac:(discriminate) H2) as (a & b & l & ->).
      simpl. destruct (split_cons b fence) as (x & l' & ->). simpl. eauto.
    + simpl. eauto.
Qed.

Lemma ascii_eqb_true : forall a b, ascii_eqb a b = true <-> a = b.
Proof. intros a b; unfold ascii_eqb; destruct (ascii_dec a b); split; congruence. Qed.

Lemma str_eqb_true : forall a b, str_eqb a b = true <-> a = b.
Proof.
  induction a as [|x a IH]; intros [|y b]; simpl; try (split; congruence).
  rewrite andb_true_iff, ascii_eqb_true, IH. split; [intros [-> ->]; auto|].
  intros H; injection H; auto.
Qed.

Lemma str_eqb_refl : forall a, str_eqb a a = true.
Proof. intros; now apply str_eqb_true. Qed.

Lemma strip_nil : strip [] = [].
Proof. reflexivity. Qed.

Lemma slides_check_bad : forall v,
  has_nonempty_slides v = false ->
  slides_check v = Ok true \/ exists e, slides_check v = Err e.
Proof.
  intros [| | | s | l | kvs] H; simpl in *; eauto.
  - destruct (find _ s); eauto.
  - destruct (existsb _ l); eauto.
  - unfold has_nonempty_slides, field in H.
    destruct (assoc _ kvs) as [x|]; auto. rewrite H. auto.
Qed.

Lemma is_valid_truthy : forall topic api_key content_sections,
  pv_truthy (is_valid topic api_key content_sections)
  = (3 <=? length (strip topic)) && (10 <=? length (strip api_key)) &&
    forallb (fun s => negb (Nat.eqb (length (strip s)) 0)) content_sections.
Proof.
  intros t k secs. unfold is_valid, py_and.
  destruct t as [|c t]; [reflexivity|].
  destruct (3 <=? length (strip (c :: t))); [|reflexivity].
  destruct k as [|d k]; [reflexivity|].
  destruct (10 <=? length (strip (d :: k))); reflexivity.
Qed.

(* ------------------------------------------------------------------ *)
(** ** Lemmas on the JSON extraction *)

Lemma ascii_eqb_sym : forall a b, ascii_eqb a b = ascii_eqb b a.
Proof. intros a b; unfold ascii_eqb; destruct (ascii_dec a b), (ascii_dec b a); congruence. Qed.

Lemma starts_with_spec : forall p s, starts_with p s = true <-> exists r, s = p ++ r.
Proof.
  induction p as [|c p IH]; intros [|d s]; simpl.
  - split; eauto.
  - split; eauto.
  - split; [discriminate|]. intros [r H]; discriminate.
  - rewrite andb_true_iff, ascii_eqb_true, IH. split.
    + intros [-> [r ->]]; eauto.
    + intros [r H]; injection H as -> ->; eauto.
Qed.

Lemma starts_with_app : forall p r, starts_with p (p ++ r) = true.
Proof. intros; apply starts_with_spec; eauto. Qed.

Lemma starts_with_app_nonmember : forall p c x y,
  ~ In c p -> starts_with p (x ++ c :: y) = starts_with p x.
Proof.
  induction p as [|a p IH]; intros c x y Hc; [destruct x; reflexivity|].
  destruct x as [|b x]; simpl.
  - destruct (ascii_eqb a c) eqn:E; [|reflexivity].
    apply ascii_eqb_true in E; subst. exfalso; apply Hc; left; auto.
  - rewrite IH; [reflexivity|]. intros H; apply Hc; right; auto.
Qed.

Lemma forallb_rev : forall {A} (f : A -> bool) l, forallb f (rev l) = forallb f l.
Proof.
  intros A f l; induction l as [|a l IH]; simpl; auto.
  rewrite forallb_app, IH; simpl. rewrite andb_true_r, andb_comm; auto.
Qed.

Lemma lstrip_all_space : forall l r, all_space l = true -> lstrip (l ++ r) = lstrip r.
Proof.
  induction l as [|c l IH]; intros r H; simpl in *; auto.
  apply andb_true_iff in H as [H1 H2]. rewrite H1. auto.
Qed.

Lemma lstrip_app_nonspace : forall x c y,
  is_space c = false -> lstrip (x ++ c :: y) = lstrip x ++ c :: y.
Proof.
  induction x as [|d x IH]; intros c y Hc; simpl; [rewrite Hc; auto|].
  destruct (is_space d); auto.
Qed.

Lemma rstrip_app_nonspace : forall x c y,
  is_space c = false -> rstrip (x ++ c :: y) = x ++ c :: rstrip y.
Proof.
  intros x c y Hc. unfold rstrip.
  rewrite rev_app_distr. simpl. rewrite <- app_assoc. simpl.
  rewrite lstrip_app_nonspace by auto.
  rewrite rev_app_distr. simpl. rewrite rev_involutive, <- app_assoc. reflexivity.
Qed.

Lemma rstrip_all_space : forall l, all_space l = true -> rstrip l = [].
Proof.
  intros l H. unfold rstrip.
  rewrite <- (app_nil_r (rev l)), lstrip_all_space; auto.
  unfold all_space. rewrite forallb_rev. auto.
Qed.

Lemma no_char_lstrip : forall c x, no_char c x = true -> no_char c (lstrip x) = true.
Proof.
  induction x as [|d x IH]; intros H; simpl in *; auto.
  destruct (is_space d); auto. apply andb_true_iff in H as [_ H]; auto.
Qed.

Lemma no_char_rstrip : forall c x, no_char c x = true -> no_char c (rstrip x) = true.
Proof.
  intros c x H. unfold rstrip, no_char in *. rewrite forallb_rev.
  apply no_char_lstrip. unfold no_char. rewrite forallb_rev. auto.
Qed.

Lemma brace_free_lstrip : forall x, brace_free x = true -> brace_free (lstrip x) = true.
Proof.
  unfold brace_free; intros x H; apply andb_true_iff in H as [H1 H2].
  rewrite !no_char_lstrip; auto.
Qed.

Lemma brace_free_rstrip : forall x, brace_free x = true -> brace_free (rstrip x) = true.
Proof.
  unfold brace_free; intros x H; apply andb_true_iff in H as [H1 H2].
  rewrite !no_char_rstrip; auto.
Qed.

Lemma find_single : forall c x y, no_char c x = true -> find [c] (x ++ c :: y) = Some (length x).
Proof.
  induction x as [|d x IH]; intros y H; simpl.
  - unfold ascii_eqb. destruct (ascii_dec c c); [reflexivity|congruence].
  - simpl in H. apply andb_true_iff in H as [H1 H2].
    rewrite ascii_eqb_sym. destruct (ascii_eqb d c); [discriminate|].
    simpl. rewrite IH; auto.
Qed.

Lemma rfind_single_none : forall c y, no_char c y = true -> rfind [c] y = None.
Proof.
  induction y as [|d y IH]; intros H; simpl; auto.
  simpl in H. apply andb_true_iff in H as [H1 H2].
  rewrite IH by auto. rewrite ascii_eqb_sym. destruct (ascii_eqb d c); [discriminate|auto].
Qed.

Lemma rfind_single : forall c x y, no_char c y = true -> rfind [c] (x ++ c :: y) = Some (length x).
Proof.
  induction x as [|d x IH]; intros y H; simpl.
  - rewrite rfind_single_none by auto.
    unfold ascii_eqb. destruct (ascii_dec c c); [reflexivity|congruence].
  - rewrite IH; auto.
Qed.

Lemma firstn_length_app : forall {A} (u v : list A), firstn (length u) (u ++ v) = u.
Proof. intros A u v; induction u; simpl; f_equal; auto. Qed.

Lemma skipn_length_app : forall {A} (u v : list A), skipn (length u) (u ++ v) = v.
Proof. intros A u v; induction u; simpl; auto. Qed.

Lemma brace_slice_payload : forall a m b,
  brace_free a = true -> brace_free b = true ->
  brace_slice (a ++ json_object_text m ++ b) = json_object_text m.
Proof.
  intros a m b Ha Hb. unfold brace_free in Ha, Hb.
  apply andb_true_iff in Ha as [Ha1 Ha2]. apply andb_true_iff in Hb as [Hb1 Hb2].
  unfold brace_slice, json_object_text.
  assert (E1 : a ++ ("{"%char :: m ++ ["}"%char]) ++ b = a ++ "{"%char :: (m ++ "}"%char :: b)).
  { simpl. rewrite <- app_assoc. reflexivity. }
  assert (E2 : a ++ ("{"%char :: m ++ ["}"%char]) ++ b = (a ++ "{"%char :: m) ++ "}"%char :: b).
  { simpl. rewrite <- !app_assoc. reflexivity. }
  change (s2l "{") with ["{"%char]. change (s2l "}") with ["}"%char].
  rewrite E1 at 1. rewrite find_single by auto.
  rewrite E2 at 1. rewrite rfind_single by auto.
  rewrite E1. unfold slice. rewrite skipn_length_app.
  rewrite length_app. simpl.
  replace (length a + S (length m) + 1 - length a) with (length ("{"%char :: m ++ ["}"%char]))
    by (simpl; rewrite length_app; simpl; lia).
  replace ("{"%char :: m ++ "}"%char :: b) with (("{"%char :: m ++ ["}"%char]) ++ b)
    by (simpl; rewrite <- app_assoc; reflexivity).
  apply firstn_length_app.
Qed.

Lemma strip_payload : forall a m b,
  strip (a ++ json_object_text m ++ b) = lstrip a ++ json_object_text m ++ rstrip b.
Proof.
  intros a m b. unfold strip, json_object_text.
  replace (a ++ ("{"%char :: m ++ ["}"%char]) ++ b) with (a ++ "{"%char :: (m ++ "}"%char :: b))
    by (simpl; rewrite <- app_assoc; reflexivity).
  rewrite lstrip_app_nonspace by reflexivity.
  replace (lstrip a ++ "{"%char :: m ++ "}"%char :: b)
    with ((lstrip a ++ "{"%char :: m) ++ "}"%char :: b)
    by (rewrite <- app_assoc; reflexivity).
  rewrite rstrip_app_nonspace by reflexivity.
  rewrite <- app_assoc. simpl. rewrite <- app_assoc. reflexivity.
Qed.

Lemma extract_after_fence : forall a m b,
  brace_free a = true -> brace_free b = true ->
  brace_slice (strip (a ++ json_object_text m ++ b)) = json_object_text m.
Proof.
  intros a m b Ha Hb. rewrite strip_payload.
  apply brace_slice_payload; [apply brace_free_lstrip | apply brace_free_rstrip]; auto.
Qed.

Lemma fence_json_starts_fence : forall x,
  starts_with fence_json x = true -> starts_with fence x = true.
Proof.
  intros x H. apply starts_with_spec in H as [r ->].
  apply starts_with_spec. exists (s2l "json" ++ r). reflexivity.
Qed.

Lemma extract_json_prose : forall pre m post,
  brace_free pre = true -> brace_free post = true ->
  starts_with fence (lstrip pre) = false ->
  extract_json (pre ++ json_object_text m ++ post) = Ok (json_object_text m).
Proof.
  intros pre m post Hpre Hpost Hf.
  unfold extract_json. rewrite strip_payload.
  assert (Hs : starts_with fence (lstrip pre ++ json_object_text m ++ rstrip post) = false).
  { unfold json_object_text. rewrite <- app_comm_cons, starts_with_app_nonmember; auto.
    simpl. intuition discriminate. }
  unfold strip_fence.
  destruct (starts_with fence_json _) eqn:Hj.
  { apply fence_json_starts_fence in Hj. congruence. }
  rewrite Hs. cbn [bind]. f_equal.
  apply brace_slice_payload; [apply brace_free_lstrip | apply brace_free_rstrip]; auto.
Qed.

Lemma find_unfold : forall sub s,
  find sub s = if starts_with sub s then Some 0
               else match s with [] => None | _ :: r => option_map S (find sub r) end.
Proof. intros sub [|c s]; reflexivity. Qed.

Lemma fence_prefix_ticks : forall sep z,
  starts_with fence sep = true -> starts_with sep z = true -> all_ticks (firstn 3 z) = true.
Proof.
  intros sep z H1 H2.
  apply starts_with_spec in H1 as [r1 ->]. apply starts_with_spec in H2 as [r2 ->].
  rewrite <- app_assoc. change 3 with (length fence). rewrite firstn_length_app.
  reflexivity.
Qed.

Lemma all_ticks_firstn_app : forall u v,
  all_ticks (firstn 3 (u ++ v)) = true -> all_ticks (firstn 3 u) = true.
Proof.
  intros u v H. rewrite firstn_app in H. unfold all_ticks in *.
  rewrite forallb_app in H. apply andb_true_iff in H as [H _]. exact H.
Qed.

Lemma find_skip : forall sep x y,
  starts_with fence sep = true -> no_tick3 x = true ->
  find sep (x ++ y) = option_map (Nat.add (length x)) (find sep y).
Proof.
  intros sep x y Hsep. induction x as [|c x IH]; intros Hx.
  - simpl. destruct (find sep y); reflexivity.
  - cbn [no_tick3] in Hx. apply andb_true_iff in Hx as [Hc Hx].
    rewrite <- app_comm_cons, find_unfold.
    destruct (starts_with sep (c :: x ++ y)) eqn:E.
    + exfalso. pose proof (fence_prefix_ticks _ _ Hsep E) as Ht.
      rewrite app_comm_cons in Ht. apply all_ticks_firstn_app in Ht.
      rewrite Ht in Hc. discriminate.
    + rewrite IH by auto. destruct (find sep y); reflexivity.
Qed.

Lemma no_tick3_plain : forall x, no_char "`"%char x = true -> no_tick3 x = true.
Proof.
  induction x as [|c x IH]; intros H; [reflexivity|].
  cbn [no_char forallb] in H. apply andb_true_iff in H as [H1 H2].
  cbn [no_tick3]. rewrite IH by exact H2. rewrite andb_true_r.
  destruct x as [|d [|e x]]; cbn; apply negb_true_iff in H1; rewrite H1; reflexivity.
Qed.

Lemma no_tick3_app : forall x y, no_tick3 x = true -> no_tick3 y = true -> no_tick3 (x ++ y) = true.
Proof.
  induction x as [|c x IH]; intros y Hx Hy; [exact Hy|].
  cbn [no_tick3] in Hx. apply andb_true_iff in Hx as [Hc Hx].
  rewrite <- app_comm_cons. cbn [no_tick3]. rewrite IH by auto. rewrite andb_true_r.
  apply negb_true_iff. apply not_true_iff_false. intros Ht.
  rewrite app_comm_cons in Ht. apply all_ticks_firstn_app in Ht.
  rewrite Ht in Hc. discriminate.
Qed.

Lemma ascii_eqb_false : forall a b, a <> b -> ascii_eqb a b = false.
Proof. intros a b H. apply not_true_iff_false. rewrite ascii_eqb_true. exact H. Qed.

Lemma no_tick3_last : forall x e,
  find fence (x ++ [e]) = None -> e <> "`"%char -> no_tick3 (x ++ [e]) = true.
Proof.
  induction x as [|c x IH]; intros e H He.
  - cbn. rewrite ascii_eqb_false by auto. reflexivity.
  - rewrite <- app_comm_cons, find_unfold in H.
    destruct (starts_with fence (c :: x ++ [e])) eqn:Es; [discriminate|].
    destruct (find fence (x ++ [e])) eqn:Ef; [discriminate|].
    rewrite <- app_comm_cons. cbn [no_tick3]. rewrite IH by auto. rewrite andb_true_r.
    apply negb_true_iff. apply not_true_iff_false. intros Ht.
    destruct x as [|d [|f x]]; cbn in Ht.
    + rewrite (ascii_eqb_false e) in Ht by auto. rewrite andb_false_r in Ht. discriminate.
    + rewrite (ascii_eqb_false e) in Ht by auto. rewrite !andb_false_r in Ht. discriminate.
    + repeat (apply andb_true_iff in Ht as [? Ht]). repeat match goal with
      | H : ascii_eqb _ _ = true |- _ => apply ascii_eqb_true in H; subst
      end.
      cbn in Es. discriminate.
Qed.

Lemma no_tick3_payload : forall m,
  find fence (json_object_text m) = None -> no_tick3 (json_object_text m) = true.
Proof.
  intros m H. change (json_object_text m) with (("{"%char :: m) ++ ["}"%char]) in *.
  apply no_tick3_last; [exact H | discriminate].
Qed.

Lemma plain_no_tick : forall x, plain_text x = true -> no_char "`"%char x = true.
Proof. unfold plain_text; intros x H; apply andb_true_iff in H as [_ H]; exact H. Qed.

Lemma plain_brace_free : forall x, plain_text x = true -> brace_free x = true.
Proof. unfold plain_text; intros x H; apply andb_true_iff in H as [H _]; exact H. Qed.

Lemma fenced_no_tick3 : forall a m b,
  plain_text a = true -> plain_text b = true -> find fence (json_object_text m) = None ->
  no_tick3 (a ++ json_object_text m ++ b) = true.
Proof.
  intros a m b Ha Hb Hm.
  apply no_tick3_app; [apply no_tick3_plain, plain_no_tick; auto|].
  apply no_tick3_app; [apply no_tick3_payload; auto|].
  apply no_tick3_plain, plain_no_tick; auto.
Qed.

Lemma split_labeled : forall z,
  no_tick3 z = true -> split (fence_json ++ z ++ fence) fence_json = [[]; z ++ fence].
Proof.
  intros z Hz. unfold split.
  rewrite !length_app. change (length fence_json) with 7. change (length fence) with 3.
  cbn [split_go]. rewrite find_unfold, starts_with_app.
  change (0 + length fence_json) with (length fence_json). rewrite skipn_length_app.
  cbn [Nat.add split_go]. rewrite find_skip by (reflexivity || exact Hz). reflexivity.
Qed.

Lemma split_closing : forall z,
  no_tick3 z = true -> split (z ++ fence) fence = [z; []].
Proof.
  intros z Hz. unfold split.
  rewrite length_app. change (length fence) with 3.
  cbn [split_go]. rewrite find_skip by (reflexivity || exact Hz).
  change (find fence fence) with (Some 0). cbn [option_map].
  rewrite Nat.add_0_r, firstn_length_app, <- length_app, skipn_all.
  replace (length z + 3) with (S (length z + 2)) by lia. reflexivity.
Qed.

Lemma split_plain : forall z,
  no_tick3 z = true -> split (fence ++ z ++ fence) fence = [[]; z; []].
Proof.
  intros z Hz. unfold split.
  rewrite !length_app. change (length fence) with 3.
  cbn [split_go]. rewrite find_unfold, starts_with_app.
  change (0 + length fence) with (length fence). rewrite skipn_length_app.
  cbn [Nat.add split_go]. rewrite find_skip by (reflexivity || exact Hz).
  change (find fence fence) with (Some 0). cbn [option_map].
  rewrite Nat.add_0_r, firstn_length_app, <- length_app, skipn_all.
  rewrite Nat.add_comm. reflexivity.
Qed.

Lemma split_no_fence : forall z, no_tick3 z = true -> split z fence = [z].
Proof.
  intros z Hz. unfold split. cbn [split_go].
  rewrite <- (app_nil_r z) at 1. rewrite find_skip by (reflexivity || exact Hz).
  reflexivity.
Qed.


Lemma strip_fenced : forall lead c x d trail,
  all_space lead = true -> all_space trail = true ->
  is_space c = false -> is_space d = false ->
  strip (lead ++ (c :: x ++ [d]) ++ trail) = c :: x ++ [d].
Proof.
  intros lead c x d trail Hl Ht Hc Hd. unfold strip.
  rewrite lstrip_all_space by exact Hl.
  rewrite <- (app_nil_l ((c :: x ++ [d]) ++ trail)), <- app_comm_cons.
  rewrite lstrip_app_nonspace by exact Hc. cbn [lstrip app].
  rewrite <- app_assoc, app_comm_cons. cbn [app].
  rewrite app_comm_cons, rstrip_app_nonspace by exact Hd.
  rewrite rstrip_all_space by exact Ht. reflexivity.
Qed.

Lemma plain_text_app_r : forall s a, plain_text (s ++ a) = true -> plain_text a = true.
Proof.
  unfold plain_text, brace_free, no_char. intros s a H.
  rewrite !forallb_app in H. repeat rewrite andb_true_iff in *. tauto.
Qed.

Lemma app_eq_prefix : forall (s a : str) c q r,
  ~ In c s -> a ++ c :: q = s ++ r -> exists a', a = s ++ a'.
Proof.
  induction s as [|x s IH]; intros a c q r Hc H; [exists a; reflexivity|].
  destruct a as [|y a]; simpl in H; injection H as E1 E2.
  - exfalso. apply Hc. left. auto.
  - subst y. destruct (IH a c q r) as [a' ->]; [intros Hin; apply Hc; right; auto | auto |].
    exists a'. reflexivity.
Qed.

Lemma strip_fence_labeled : forall a m b,
  plain_text a = true -> plain_text b = true -> find fence (json_object_text m) = None ->
  strip_fence (fence_json ++ (a ++ json_object_text m ++ b) ++ fence)
  = Ok (strip (a ++ json_object_text m ++ b)).
Proof.
  intros a m b Ha Hb Hm.
  pose proof (fenced_no_tick3 a m b Ha Hb Hm) as Hz.
  unfold strip_fence. rewrite starts_with_app.
  rewrite split_labeled by exact Hz. cbn [list_index nth_error bind].
  rewrite split_closing by exact Hz. reflexivity.
Qed.

Lemma strip_fence_plain : forall a m b,
  plain_text a = true -> plain_text b = true -> find fence (json_object_text m) = None ->
  exists a', plain_text a' = true /\
    strip_fence (fence ++ (a ++ json_object_text m ++ b) ++ fence)
    = Ok (strip (a' ++ json_object_text m ++ b)).
Proof.
  intros a m b Ha Hb Hm.
  pose proof (fenced_no_tick3 a m b Ha Hb Hm) as Hz.
  destruct (starts_with fence_json (fence ++ (a ++ json_object_text m ++ b) ++ fence)) eqn:Ej.
  - apply starts_with_spec in Ej as [r Er].
    change fence_json with (fence ++ s2l "json") in Er.
    rewrite <- (app_assoc fence (s2l "json") r) in Er.
    apply app_inv_head in Er.
    assert (E : (a ++ json_object_text m ++ b) ++ fence
                = a ++ "{"%char :: ((m ++ ["}"%char]) ++ b ++ fence)).
    { unfold json_object_text. rewrite <- !app_assoc. simpl. rewrite <- !app_assoc. reflexivity. }
    rewrite E in Er.
    assert (Hn : ~ In "{"%char (s2l "json")).
    { unfold s2l; simpl. intros [H|[H|[H|[H|H]]]]; try discriminate; exact H. }
    destruct (app_eq_prefix _ _ _ _ _ Hn Er) as [a' ->].
    exists a'. split; [eapply plain_text_app_r; eauto|].
    rewrite <- !app_assoc.
    replace (fence ++ s2l "json" ++ a' ++ json_object_text m ++ b ++ fence)
      with (fence_json ++ (a' ++ json_object_text m ++ b) ++ fence)
      by (rewrite <- !app_assoc; reflexivity).
    apply strip_fence_labeled; [eapply plain_text_app_r; eauto | auto | auto].
  - exists a. split; [exact Ha|].
    unfold strip_fence. rewrite Ej, starts_with_app.
    rewrite split_plain by exact Hz. cbn [list_index nth_error bind].
    rewrite split_no_fence by exact Hz. reflexivity.
Qed.

(* ------------------------------------------------------------------ *)
(** ** Lemmas on the rendering *)

Lemma shape_refl : forall w, shape 0 w w.
Proof. intros w; unfold shape; repeat split; lia. Qed.

Lemma shape_trans : forall a b w1 w2 w3,
  shape a w1 w2 -> shape b w2 w3 -> shape (a + b) w1 w3.
Proof.
  unfold shape; intros a b w1 w2 w3 (H1 & H2 & H3 & H4) (H5 & H6 & H7 & H8).
  repeat split; congruence || lia.
Qed.

Lemma map_last_length : forall {A} (f : A -> A) l, length (map_last f l) = length l.
Proof.
  intros A f l; induction l as [|x [|y r] IH]; simpl in *; auto.
Qed.

Lemma grows_retM : forall {A} (a : A), grows 0 (retM a).
Proof. intros A a w; apply shape_refl. Qed.

Lemma grows_liftR : forall {A} (r : result A), grows 0 (liftR r).
Proof. intros A r w; apply shape_refl. Qed.

Lemma grows_print : forall s, grows 0 (print s).
Proof. intros s w; unfold shape; simpl; repeat split; lia. Qed.

Lemma grows_modify_slide : forall f, grows 0 (modify_slide f).
Proof. intros f w; unfold shape; simpl; rewrite map_last_length; repeat split; lia. Qed.

Lemma grows_bind0 : forall {A B} (m : M A) (k : A -> M B),
  grows 0 m -> (forall x, grows 0 (k x)) -> grows 0 (bindM m k).
Proof.
  intros A B m k Hm Hk w. specialize (Hm w). unfold bindM.
  destruct (m w) as [w1 [a|e]]; simpl in *; [|exact Hm].
  exact (shape_trans 0 0 _ _ _ Hm (Hk a w1)).
Qed.

Create HintDb grows_db.
#[local] Hint Resolve grows_retM grows_liftR grows_print grows_modify_slide grows_bind0
  : grows_db.

Lemma grows_fill_background : forall d s, grows 0 (fill_background d s).
Proof. intros; unfold fill_background; auto with grows_db. Qed.

Lemma grows_fill_title : forall d, grows 0 (fill_title d).
Proof. intros; unfold fill_title; auto with grows_db. Qed.

Lemma grows_fill_bullets : forall items, grows 0 (fill_bullets items).
Proof. induction items; simpl; auto with grows_db. Qed.

Lemma grows_fill_body : forall d, grows 0 (fill_body d).
Proof. intros; unfold fill_body; auto using grows_fill_bullets with grows_db. Qed.

#[local] Hint Resolve grows_fill_background grows_fill_title grows_fill_body : grows_db.

(** [add_slide] followed by steps that only fill the new slide. *)
Lemma grows_add_then : forall {A} l (r : M A), grows 0 r -> grows 1 (add_slide l ;;; r).
Proof.
  intros A l r Hr w. unfold bindM. cbn [add_slide modify_doc].
  refine (shape_trans 1 0 _ _ _ _ (Hr _)).
  unfold shape; simpl; rewrite length_app; simpl; repeat split; lia.
Qed.

Lemma grows_title_slide : forall d, grows 1 (_create_title_slide d).
Proof. intros; unfold _create_title_slide; apply grows_add_then; auto with grows_db. Qed.

Lemma grows_content_slide : forall img d i,
  grows 1 (_create_content_slide img d i).
Proof.
  intros; unfold _create_content_slide; apply grows_add_then.
  repeat (apply grows_bind0; intros; auto with grows_db).
  destruct (img i); auto with grows_db.
Qed.

Lemma grows_summary_slide : forall d, grows 1 (_create_summary_slide d).
Proof. intros; unfold _create_summary_slide; apply grows_add_then; auto with grows_db. Qed.

(** A dict descriptor appends exactly one slide, whether its rendering
    raises or not; any other descriptor raises before adding one. *)
Lemma grows_create_slide : forall img d i,
  grows (if is_dict d then 1 else 0) (create_slide img d i).
Proof.
  intros img d i w. unfold create_slide, bindM, liftR.
  destruct d as [| | | | |kvs]; cbn [py_get is_dict]; try apply shape_refl.
  destruct (assoc (s2l "slide_type") kvs) as [t|]; cbv beta iota;
    [destruct (eq_str t (s2l "title")); [|destruct (eq_str t (s2l "summary"))]|];
    (apply grows_title_slide || apply grows_summary_slide || apply grows_content_slide).
Qed.

Lemma tryM_print_total : forall (m : M unit) (msg : exn -> str),
  total (tryM m (fun e => print (msg e))).
Proof.
  intros m msg w. unfold tryM.
  destruct (m w) as [w1 [[]|e]]; simpl; eauto.
Qed.

Lemma grows_tryM : forall {A} n (m : M A) h,
  grows n m -> (forall e, grows 0 (h e)) -> grows n (tryM m h).
Proof.
  intros A n m h Hm Hh w. specialize (Hm w). unfold tryM.
  destruct (m w) as [w1 [a|e]]; simpl in *; [exact Hm|].
  rewrite <- (Nat.add_0_r n). exact (shape_trans n 0 _ _ _ Hm (Hh e w1)).
Qed.

Lemma grows_bind_total : forall {A B} a b (m : M A) (k : A -> M B),
  grows a m -> total m -> (forall x, grows b (k x)) -> grows (a + b) (bindM m k).
Proof.
  intros A B a b m k Hm Ht Hk w. specialize (Hm w). destruct (Ht w) as [x Hx].
  unfold bindM. destruct (m w) as [w1 r]; simpl in *; subst r.
  exact (shape_trans a b _ _ _ Hm (Hk x w1)).
Qed.

Lemma grows_slide_loop : forall img items i,
  grows (length (filter is_dict items)) (slide_loop img items i).
Proof.
  intros img items; induction items as [|d r IH]; intros i; simpl.
  - apply grows_retM.
  - replace (length (if is_dict d then d :: filter is_dict r else filter is_dict r))
      with ((if is_dict d then 1 else 0) + length (filter is_dict r))
      by (destruct (is_dict d); reflexivity).
    apply grows_bind_total.
    + apply grows_tryM; [apply grows_create_slide | intros; apply grows_print].
    + apply tryM_print_total.
    + intros; apply IH.
Qed.

Lemma slide_loop_ok : forall img items i w, snd (slide_loop img items i w) = Ok tt.
Proof.
  intros img items; induction items as [|d r IH]; intros i w; [reflexivity|].
  simpl. unfold bindM at 1.
  destruct (tryM_print_total (create_slide img d i)
              (fun e => s2l "Error creating slide " ++ str_of_nat (i + 1) ++ s2l ": "
                        ++ exn_text e) w) as [x Hx].
  destruct (tryM _ _ w) as [w1 r1]; simpl in Hx; subst r1. apply IH.
Qed.

(** The items the loop of [create_powerpoint] visits are the [slides] list
    itself, or non-dict values when [slides] is a str or a dict. *)
Lemma slides_items_dicts : forall data sl items,
  py_getitem data (s2l "slides") = Ok sl -> py_iter sl = Ok items ->
  length (filter is_dict items) = length (filter is_dict (slides_of data)).
Proof.
  intros data sl items Hg Hi.
  destruct data as [| | | | |kvs]; cbn [py_getitem] in Hg; try discriminate.
  unfold slides_of, field.
  destruct (assoc (s2l "slides") kvs) as [v|]; [|discriminate]. injection Hg as ->.
  destruct sl as [| | |s|l|kvs']; simpl in Hi; try discriminate; injection Hi as <-.
  - induction s; simpl; auto.
  - reflexivity.
  - induction kvs'; simpl; auto.
Qed.

(** What a [create_powerpoint] call that returns normally has saved. *)
Lemma create_powerpoint_saved : forall img save_error data path w w',
  create_powerpoint img save_error data path w = (w', Ok tt) ->
  files w' = files w ++ [(path, doc w')] /\
  slide_width (doc w') = Inches 10 1 /\ slide_height (doc w') = Inches 15 2 /\
  length (slides (doc w')) = length (filter is_dict (slides_of data)).
Proof.
  intros img se data path w w' H.
  unfold create_powerpoint in H. cbn [bindM set_doc modify_doc liftR] in H.
  destruct (py_getitem data (s2l "slides")) as [sl|e] eqn:Hg; [|discriminate].
  destruct (py_iter sl) as [items|e] eqn:Hi; [|discriminate].
  cbn in H.
  unfold bindM in H.
  match type of H with context [slide_loop img items 0 ?x] => set (w0 := x) in H end.
  assert (Hs := grows_slide_loop img items 0 w0).
  assert (Ho := slide_loop_ok img items 0 w0).
  destruct (slide_loop img items 0 w0) as [w1 r] eqn:E; simpl in Ho, Hs; subst r.
  rewrite (slides_items_dicts data sl items Hg Hi) in Hs.
  destruct se as [e|]; simpl in H; [discriminate|]. injection H as <-.
  destruct Hs as (H1 & H2 & H3 & H4). subst w0; cbn in *.
  repeat split; congruence.
Qed.



(* ------------------------------------------------------------------ *)
(** ** Claims *)

(** C1: if the LLM call raises, its content is missing, the extracted text
    does not parse as JSON, or the parsed value has no non-empty [slides]
    key, [generate_presentation_content] returns the fallback content and
    raises nothing. *)
Theorem generate_presentation_content_fallback :
  forall json_loads self topic content_names llm,
    ((exists e, llm = LLMRaises e) \/
     llm = LLMContent None \/
     (exists raw e, llm = LLMContent (Some raw) /\ parse_response json_loads raw = Err e) \/
     (exists raw v, llm = LLMContent (Some raw) /\ parse_response json_loads raw = Ok v /\
                    has_nonempty_slides v = false)) ->
    generate_presentation_content json_loads self topic content_names llm
    = Ok (_create_fallback_content self topic content_names).
Proof.
  intros json_loads self topic names llm
    [[e ->] | [-> | [(raw & e & -> & Hp) | (raw & v & -> & Hp & Hs)]]];
    try reflexivity.
  - unfold generate_presentation_content, generate_try. simpl.
    unfold parse_response in Hp.
    destruct (extract_json raw) as [c|e']; simpl in *; [|reflexivity].
    rewrite Hp. reflexivity.
  - unfold generate_presentation_content, generate_try. simpl.
    unfold parse_response in Hp.
    destruct (extract_json raw) as [c|e']; simpl in *; [|discriminate].
    rewrite Hp. simpl.
    destruct (slides_check_bad v Hs) as [-> | [e ->]]; reflexivity.
Qed.

Lemma generate_presentation_content_fallback_witness :
  generate_presentation_content JsonFragment.loads_fragment gen0 cloud_topic cloud_sections
    (LLMRaises (ExternalError (s2l "connection refused")))
  = Ok (_create_fallback_content gen0 cloud_topic cloud_sections).
Proof.
  apply generate_presentation_content_fallback. left. eexists. reflexivity.
Defined.

(** C2: for a valid request the fallback has [len(sections) + 2]
    descriptors: a title slide with the fixed subtitle, one section slide
    per requested name in order, and the closing summary slide. *)
Theorem fallback_content_shape :
  forall self topic content_names,
    valid_request topic content_names ->
    let sl := slides_of (_create_fallback_content self topic content_names) in
    length sl = length content_names + 2 /\
    field (nth 0 sl JNull) (s2l "slide_type") = Some (JStr (s2l "title")) /\
    field (nth 0 sl JNull) (s2l "subtitle")
      = Some (JStr (s2l "Comprehensive Professional Presentation")) /\
    (forall i, i < length content_names ->
       field (nth (S i) sl JNull) (s2l "slide_type") = Some (JStr (s2l "section")) /\
       field (nth (S i) sl JNull) (s2l "title") = Some (JStr (nth i content_names []))) /\
    field (nth (length content_names + 1) sl JNull) (s2l "slide_type")
      = Some (JStr (s2l "summary")) /\
    field (nth (length content_names + 1) sl JNull) (s2l "title")
      = Some (JStr (s2l "Conclusion & Recommendations")).
Proof.
  intros self topic names _ sl.
  assert (Hsl : sl = [fallback_title_slide topic] ++ fallback_sections topic 0 names
                     ++ [fallback_summary_slide]) by reflexivity.
  rewrite Hsl. clear Hsl sl.
  refine (conj _ (conj eq_refl (conj eq_refl (conj _ (conj _ _))))).
  - rewrite !length_app, fallback_sections_length. simpl. lia.
  - intros i Hi. simpl. rewrite app_nth1 by (rewrite fallback_sections_length; lia).
    rewrite fallback_sections_nth by lia. split; reflexivity.
  - rewrite Nat.add_1_r. simpl.
    rewrite app_nth2 by (rewrite fallback_sections_length; lia).
    rewrite fallback_sections_length, Nat.sub_diag. reflexivity.
  - rewrite Nat.add_1_r. simpl.
    rewrite app_nth2 by (rewrite fallback_sections_length; lia).
    rewrite fallback_sections_length, Nat.sub_diag. reflexivity.
Qed.

Lemma fallback_content_shape_witness :
  valid_request cloud_topic cloud_sections /\
  length (slides_of (_create_fallback_content gen0 cloud_topic cloud_sections)) = 5.
Proof.
  assert (Hv : valid_request cloud_topic cloud_sections).
  { unfold valid_request. repeat split; simpl; try lia.
    repeat constructor; simpl; discriminate. }
  split; [exact Hv|].
  destruct (fallback_content_shape gen0 cloud_topic cloud_sections Hv) as [H _].
  exact H.
Defined.

(** C6: the submit button is enabled exactly when the stripped topic has
    at least 3 characters, the stripped API key at least 10, no section is
    blank after stripping, and no generation is running; a blank section
    keeps it disabled whatever the topic and key. *)
Theorem submit_enabled_iff :
  forall topic api_key content_sections generating,
    (submit_disabled topic api_key content_sections generating = false <->
     3 <= length (strip topic) /\ 10 <= length (strip api_key) /\
     Forall (fun s => strip s <> []) content_sections /\ generating = false) /\
    ((exists s, In s content_sections /\ strip s = []) ->
     submit_disabled topic api_key content_sections generating = true).
Proof.
  intros topic key secs gen.
  assert (Hall : forallb (fun s => negb (Nat.eqb (length (strip s)) 0)) secs = true <->
                 Forall (fun s => strip s <> []) secs).
  { rewrite forallb_forall, Forall_forall. split; intros H s Hs; specialize (H s Hs).
    - intros E. rewrite E in H. discriminate.
    - destruct (strip s); [congruence|reflexivity]. }
  unfold submit_disabled. rewrite is_valid_truthy.
  split.
  - split.
    + intros H. apply orb_false_iff in H as [H1 ->].
      apply negb_false_iff, andb_true_iff in H1 as [H1 H3].
      apply andb_true_iff in H1 as [H1 H2].
      apply Nat.leb_le in H1, H2. apply Hall in H3. auto.
    + intros (H1 & H2 & H3 & ->). rewrite orb_false_r, negb_false_iff.
      apply Nat.leb_le in H1, H2. apply Hall in H3. rewrite H1, H2, H3. reflexivity.
  - intros (s & Hin & Hs).
    assert (Hf : forallb (fun s => negb (Nat.eqb (length (strip s)) 0)) secs = false).
    { apply not_true_iff_false. intros H. apply Hall in H.
      rewrite Forall_forall in H. exact (H s Hin Hs). }
    rewrite Hf, andb_false_r. reflexivity.
Qed.

(** C7: any color name other than the five known ones gets white,
    RGBColor(255, 255, 255), without raising. *)
Theorem get_background_color_default :
  forall color_name,
    ~ In color_name [s2l "blue"; s2l "light_blue"; s2l "white"; s2l "dark"; s2l "gradient"] ->
    get_background_color (JStr color_name) = Ok (mkRGB 255 255 255).
Proof.
  intros c Hc. unfold get_background_color, background_colors. simpl.
  repeat match goal with
  | |- context [str_eqb c ?k] =>
      let E := fresh "E" in
      destruct (str_eqb c k) eqn:E;
      [apply str_eqb_true in E; subst; exfalso; apply Hc; simpl; tauto|]
  end.
  reflexivity.
Qed.

Lemma get_background_color_default_witness :
  ~ In (s2l "magenta") [s2l "blue"; s2l "light_blue"; s2l "white"; s2l "dark"; s2l "gradient"] /\
  get_background_color (JStr (s2l "magenta")) = Ok (mkRGB 255 255 255).
Proof.
  assert (H : ~ In (s2l "magenta")
                [s2l "blue"; s2l "light_blue"; s2l "white"; s2l "dark"; s2l "gradient"]).
  { simpl. intuition discriminate. }
  split; [exact H | exact (get_background_color_default _ H)].
Defined.

(** C8: [_create_fallback_content] is deterministic: two calls with the same
    topic and section list, even on different generator objects, return
    equal structures. *)
Theorem fallback_content_deterministic :
  forall self1 self2 topic1 topic2 names1 names2,
    topic1 = topic2 -> names1 = names2 ->
    _create_fallback_content self1 topic1 names1 = _create_fallback_content self2 topic2 names2.
Proof. intros s1 s2 t1 t2 n1 n2 -> ->. reflexivity. Qed.

Lemma fallback_content_deterministic_witness :
  _create_fallback_content gen0 cloud_topic cloud_sections
  = _create_fallback_content (mkGenerator [] []) cloud_topic cloud_sections.
Proof. apply fallback_content_deterministic; reflexivity. Defined.

(** C9: a descriptor (a dict) whose [slide_type] is absent or is anything
    but "title" or "summary" goes to the content-slide builder; the dispatch
    adds no failure of its own. *)
Theorem create_slide_default_content :
  forall image_at kvs slide_index,
    assoc (s2l "slide_type") kvs <> Some (JStr (s2l "title")) ->
    assoc (s2l "slide_type") kvs <> Some (JStr (s2l "summary")) ->
    forall w, create_slide image_at (JObj kvs) slide_index w
              = _create_content_slide image_at (JObj kvs) slide_index w.
Proof.
  intros img kvs i H1 H2 w.
  unfold create_slide, bindM, liftR, py_get.
  destruct (assoc (s2l "slide_type") kvs) as [v|] eqn:Ea; [|reflexivity].
  destruct (eq_str v (s2l "title")) eqn:Et.
  { destruct v; simpl in Et; try discriminate.
    apply str_eqb_true in Et. subst. exfalso; apply H1; reflexivity. }
  destruct (eq_str v (s2l "summary")) eqn:Es.
  { destruct v; simpl in Es; try discriminate.
    apply str_eqb_true in Es. subst. exfalso; apply H2; reflexivity. }
  reflexivity.
Qed.

Lemma create_slide_default_content_witness :
  create_slide (fun _ => NoImage)
    (JObj [(s2l "slide_type", JStr (s2l "agenda")); (s2l "title", JStr (s2l "Plan"))]) 2
    (mkWorld Presentation [] [])
  = _create_content_slide (fun _ => NoImage)
    (JObj [(s2l "slide_type", JStr (s2l "agenda")); (s2l "title", JStr (s2l "Plan"))]) 2
    (mkWorld Presentation [] []).
Proof. apply create_slide_default_content; simpl; discriminate. Defined.

(** C10: [generate_presentation] always leaves the [generating] flag False:
    on success it returns the output path (also recorded in the session),
    and after an exception it returns [None]. *)
Theorem generate_presentation_resets_generating :
  forall json_loads ev topic content_sections api_key model ss w,
    let '(ss', _, r) :=
      generate_presentation json_loads ev topic content_sections api_key model ss w in
    generating ss' = false /\
    ((exists p, r = Ok (Some p) /\ generated_file_path ss' = Some p) \/ r = Ok None).
Proof.
  intros jl ev topic secs key model ss w.
  unfold generate_presentation.
  destruct (match groq_init ev with
            | Ok _ => _
            | Err e => (w, Err e)
            end) as [w' [p|e]]; simpl; eauto.
Qed.

(** C3 (as amended): extraction recovers an embedded JSON object text [p]
    exactly
    - when the response is [p] inside a labeled fence ("```json" ... "```"),
    - when it is [p] inside an unlabeled fence ("```" ... "```"),
    with only whitespace before the opening and after the closing marker,
    text free of braces and backticks (a newline, a language tag) between
    the markers and [p], and no "```" inside [p];
    - when leading and trailing prose that contains no '{' or '}' surrounds
      [p] and the leading prose does not open a code fence. *)
Theorem extract_json_recovers_payload :
  forall m,
    let p := json_object_text m in
    (forall lead a b trail,
       all_space lead = true -> all_space trail = true ->
       plain_text a = true -> plain_text b = true -> find fence p = None ->
       extract_json (lead ++ fence_json ++ a ++ p ++ b ++ fence ++ trail) = Ok p) /\
    (forall lead a b trail,
       all_space lead = true -> all_space trail = true ->
       plain_text a = true -> plain_text b = true -> find fence p = None ->
       extract_json (lead ++ fence ++ a ++ p ++ b ++ fence ++ trail) = Ok p) /\
    (forall pre post,
       brace_free pre = true -> brace_free post = true ->
       starts_with fence (lstrip pre) = false ->
       extract_json (pre ++ p ++ post) = Ok p).
Proof.
  intros m p. subst p. split; [|split].
  - intros lead a b trail Hl Ht Ha Hb Hm.
    unfold extract_json.
    replace (lead ++ fence_json ++ a ++ json_object_text m ++ b ++ fence ++ trail)
      with (lead ++ ("`"%char :: (s2l "``json" ++ (a ++ json_object_text m ++ b)
                                   ++ s2l "``") ++ ["`"%char]) ++ trail)
      by (simpl; rewrite <- ?app_assoc; simpl; rewrite <- ?app_assoc; reflexivity).
    rewrite strip_fenced by (reflexivity || assumption).
    replace ("`"%char :: (s2l "``json" ++ (a ++ json_object_text m ++ b) ++ s2l "``")
             ++ ["`"%char])
      with (fence_json ++ (a ++ json_object_text m ++ b) ++ fence)
      by (simpl; rewrite <- ?app_assoc; simpl; rewrite <- ?app_assoc; reflexivity).
    rewrite strip_fence_labeled by assumption. cbn [bind]. f_equal.
    apply extract_after_fence; apply plain_brace_free; auto.
  - intros lead a b trail Hl Ht Ha Hb Hm.
    unfold extract_json.
    replace (lead ++ fence ++ a ++ json_object_text m ++ b ++ fence ++ trail)
      with (lead ++ ("`"%char :: (s2l "``" ++ (a ++ json_object_text m ++ b)
                                   ++ s2l "``") ++ ["`"%char]) ++ trail)
      by (simpl; rewrite <- ?app_assoc; simpl; rewrite <- ?app_assoc; reflexivity).
    rewrite strip_fenced by (reflexivity || assumption).
    replace ("`"%char :: (s2l "``" ++ (a ++ json_object_text m ++ b) ++ s2l "``")
             ++ ["`"%char])
      with (fence ++ (a ++ json_object_text m ++ b) ++ fence)
      by (simpl; rewrite <- ?app_assoc; simpl; rewrite <- ?app_assoc; reflexivity).
    destruct (strip_fence_plain a m b Ha Hb Hm) as (a' & Ha' & ->).
    cbn [bind]. f_equal.
    apply extract_after_fence; apply plain_brace_free; auto.
  - intros pre post Hpre Hpost Hf. apply extract_json_prose; auto.
Qed.

Lemma extract_json_recovers_payload_witness :
  extract_json (fence_json ++ nl ++ json_object_text payload_inside ++ nl ++ fence)
    = Ok (json_object_text payload_inside) /\
  extract_json (s2l "  " ++ fence ++ s2l "javascript" ++ nl ++ json_object_text payload_inside
                ++ nl ++ fence ++ nl)
    = Ok (json_object_text payload_inside) /\
  extract_json (s2l "Here is the deck: " ++ json_object_text payload_inside ++ s2l " Enjoy!")
    = Ok (json_object_text payload_inside).
Proof.
  destruct (extract_json_recovers_payload payload_inside) as (H1 & H2 & H3).
  split; [|split].
  - exact (H1 [] nl nl [] eq_refl eq_refl eq_refl eq_refl eq_refl).
  - exact (H2 (s2l "  ") (s2l "javascript" ++ nl) nl nl eq_refl eq_refl eq_refl eq_refl eq_refl).
  - exact (H3 (s2l "Here is the deck: ") (s2l " Enjoy!") eq_refl eq_refl eq_refl).
Defined.

(** C3 as stated fails: a fenced payload whose string value holds "```" is
    cut at it, and prose holding a brace widens the cut. *)
Lemma extract_json_counterexample :
  extract_json (fence_json ++ nl ++ json_object_text (quoted "code" ++ s2l ": " ++ quoted "```") ++ nl ++ fence)
    = Ok (s2l "{" ++ quoted "code" ++ s2l ": " ++ [DQ]) /\
  extract_json (s2l "Use {braces}: " ++ json_object_text (quoted "a" ++ s2l ": 1"))
    = Ok (s2l "{braces}: {" ++ quoted "a" ++ s2l ": 1}").
Proof. split; vm_compute; reflexivity. Qed.




(** C5 (as amended): in [create_powerpoint]'s loop an exception raised by
    one descriptor is caught and logged as "Error creating slide {i+1}: {e}"
    and the following descriptors are rendered in order; the loop never
    raises. A dict descriptor has already added its slide when it raises,
    so the saved document keeps that partially filled slide; it holds every
    slide added, not only those that rendered without error. *)
Theorem slide_loop_isolates_errors :
  forall img,
    (forall items i w, snd (slide_loop img items i w) = Ok tt) /\
    (forall d rest i w w' e,
       create_slide img d i w = (w', Err e) ->
       slide_loop img (d :: rest) i w =
       slide_loop img rest (S i)
         (mkWorld (doc w') (stdout w' ++ [slide_error_line i e]) (files w'))) /\
    (forall d rest i w w',
       create_slide img d i w = (w', Ok tt) ->
       slide_loop img (d :: rest) i w = slide_loop img rest (S i) w') /\
    (forall d i w,
       is_dict d = true ->
       length (slides (doc (fst (create_slide img d i w)))) = S (length (slides (doc w)))) /\
    (forall save_error data path w w',
       create_powerpoint img save_error data path w = (w', Ok tt) ->
       files w' = files w ++ [(path, doc w')]).
Proof.
  intros img. split; [|split; [|split; [|split]]].
  - apply slide_loop_ok.
  - intros d rest i w w' e H. cbn [slide_loop]. unfold bindM at 1, tryM. rewrite H. reflexivity.
  - intros d rest i w w' H. cbn [slide_loop]. unfold bindM at 1, tryM. rewrite H. reflexivity.
  - intros d i w Hd. destruct (grows_create_slide img d i w) as (_ & _ & H & _).
    rewrite Hd in H. rewrite H. lia.
  - intros se data path w w' H. apply (create_powerpoint_saved _ _ _ _ _ _ H).
Qed.

(** A title descriptor without [title] raises [KeyError] after its slide
    was added; the loop logs it and goes on to the next descriptor. *)
Lemma slide_loop_isolates_errors_witness :
  create_slide (fun _ => NoImage) (JObj [(s2l "slide_type", JStr (s2l "title"))]) 0 world0
    = (fst (create_slide (fun _ => NoImage)
              (JObj [(s2l "slide_type", JStr (s2l "title"))]) 0 world0),
       Err (KeyError (s2l "title"))) /\
  slide_loop (fun _ => NoImage)
    [JObj [(s2l "slide_type", JStr (s2l "title"))]; fallback_summary_slide] 0 world0 =
  slide_loop (fun _ => NoImage) [fallback_summary_slide] 1
    (mkWorld (doc (fst (create_slide (fun _ => NoImage)
                          (JObj [(s2l "slide_type", JStr (s2l "title"))]) 0 world0)))
             (stdout (fst (create_slide (fun _ => NoImage)
                            (JObj [(s2l "slide_type", JStr (s2l "title"))]) 0 world0))
              ++ [slide_error_line 0 (KeyError (s2l "title"))])
             (files (fst (create_slide (fun _ => NoImage)
                           (JObj [(s2l "slide_type", JStr (s2l "title"))]) 0 world0)))).
Proof.
  destruct (slide_loop_isolates_errors (fun _ => NoImage)) as (_ & H & _).
  assert (E : create_slide (fun _ => NoImage) (JObj [(s2l "slide_type", JStr (s2l "title"))])
                0 world0
              = (fst (create_slide (fun _ => NoImage)
                        (JObj [(s2l "slide_type", JStr (s2l "title"))]) 0 world0),
                 Err (KeyError (s2l "title")))) by (vm_compute; reflexivity).
  split; [exact E | exact (H _ _ _ _ _ _ E)].
Defined.

(** C5 as stated fails: the descriptor that raised leaves a slide with a
    blue background and no title in the saved document. *)
Lemma create_powerpoint_partial_slide_counterexample :
  create_powerpoint (fun _ => NoImage) None untitled_deck (s2l "deck.pptx") world0 =
  (mkWorld (mkPres (Inches 10 1) (Inches 15 2) [mkSlide 0 (Some (mkRGB 0 84 147)) None None [] false])
           [slide_error_line 0 (KeyError (s2l "title"))]
           [(s2l "deck.pptx",
             mkPres (Inches 10 1) (Inches 15 2) [mkSlide 0 (Some (mkRGB 0 84 147)) None None [] false])],
   Ok tt).
Proof. vm_compute. reflexivity. Qed.

(* ------------------------------------------------------------------ *)
(** ** Further properties of the code *)

Lemma map_last_app : forall {A} (f : A -> A) l x, map_last f (l ++ [x]) = l ++ [f x].
Proof.
  intros A f l x; induction l as [|y [|z r] IH]; simpl in *; auto.
  rewrite IH. reflexivity.
Qed.

Lemma bindM_ok : forall {A B} (m : M A) (k : A -> M B) w w1 a,
  m w = (w1, Ok a) -> bindM m k w = k a w1.
Proof. intros A B m k w w1 a H; unfold bindM; rewrite H; reflexivity. Qed.

Section Builders.

Variables (a b : Z) (l : list slide) (o : list str) (fl : list (str * pres)).

(** The world while a builder fills its new last slide [s]. *)
Let W (s : slide) : world := mkWorld (mkPres a b (l ++ [s])) o fl.

Lemma modify_slide_W : forall f s, modify_slide f (W s) = (W (f s), Ok tt).
Proof. intros f s; unfold modify_slide, modify_doc, W; simpl; rewrite map_last_app; reflexivity. Qed.

Lemma fill_background_W : forall kvs dflt s,
  opt_str_ok (assoc (s2l "background_color") kvs) = true ->
  fill_background (JObj kvs) dflt (W s) =
  (W (set_background (color_of (str_or (assoc (s2l "background_color") kvs) dflt)) s), Ok tt).
Proof.
  intros kvs dflt s H. unfold fill_background, bindM, liftR. cbn [py_get].
  destruct (assoc (s2l "background_color") kvs) as [[| | | | |]|]; try discriminate;
    cbn [get_background_color str_or]; unfold color_of;
    destruct (lookup_color _ background_colors); apply modify_slide_W.
Qed.

Lemma fill_title_W : forall kvs t s,
  assoc (s2l "title") kvs = Some (JStr t) ->
  fill_title (JObj kvs) (W s) = (W (set_title t s), Ok tt).
Proof.
  intros kvs t s H. unfold fill_title, bindM, liftR. cbn [py_getitem]. rewrite H.
  apply modify_slide_W.
Qed.

Lemma fill_bullets_W : forall items s,
  forallb is_str items = true ->
  fill_bullets items (W s) =
  (W (mkSlide (layout s) (background s) (title_text s) (subtitle_text s)
              (body s ++ map (fun x => match x with JStr t => t | _ => [] end) items)
              (picture s)), Ok tt).
Proof.
  induction items as [|x r IH]; intros s H; simpl.
  - rewrite app_nil_r. destruct s; reflexivity.
  - destruct x as [| | |t| |]; try discriminate. simpl in H.
    unfold bindM at 1, liftR. cbn [text_of].
    rewrite (bindM_ok _ _ _ _ _ (modify_slide_W (add_paragraph t) s)).
    rewrite (IH _ H). unfold add_paragraph; simpl. rewrite <- app_assoc. reflexivity.
Qed.

Lemma fill_body_W : forall kvs s,
  bullets_ok (assoc (s2l "content") kvs) = true ->
  fill_body (JObj kvs) (W s) =
  (W (mkSlide (layout s) (background s) (title_text s) (subtitle_text s)
              (body s ++ bullet_texts (assoc (s2l "content") kvs)) (picture s)), Ok tt).
Proof.
  intros kvs s H. unfold fill_body, bindM at 1, liftR. cbn [py_get].
  destruct (assoc (s2l "content") kvs) as [v|]; simpl in H.
  - destruct v as [| | |t|items|kvs']; try discriminate; cbn [py_iter bullet_texts];
      unfold bindM; cbv beta iota.
    + rewrite fill_bullets_W by (induction t; simpl; auto). rewrite map_map. reflexivity.
    + apply fill_bullets_W; exact H.
    + rewrite fill_bullets_W by (induction kvs'; simpl; auto). rewrite map_map. reflexivity.
  - cbn [py_iter]. unfold bindM; cbv beta iota.
    rewrite fill_bullets_W by reflexivity. reflexivity.
Qed.

End Builders.

Lemma add_slide_extend : forall ly w,
  add_slide ly w =
  (mkWorld (mkPres (slide_width (doc w)) (slide_height (doc w))
                   (slides (doc w) ++ [mkSlide ly None None None [] false]))
           (stdout w) (files w), Ok tt).
Proof. reflexivity. Qed.

Lemma print_W : forall p o fl x, print x (mkWorld p o fl) = (mkWorld p (o ++ [x]) fl, Ok tt).
Proof. reflexivity. Qed.

Ltac title_branch Hb Ht :=
  unfold _create_title_slide;
  rewrite (bindM_ok _ _ _ _ _ (add_slide_extend 0 _));
  cbn [doc slide_width slide_height slides stdout files];
  rewrite (bindM_ok _ _ _ _ _ (fill_background_W _ _ _ _ _ _ _ _ Hb));
  rewrite (bindM_ok _ _ _ _ _ (fill_title_W _ _ _ _ _ _ _ _ Ht));
  unfold bindM at 1, liftR; cbn [py_get].

Ltac summary_branch Hb Ht Hc :=
  unfold _create_summary_slide;
  rewrite (bindM_ok _ _ _ _ _ (add_slide_extend 1 _));
  cbn [doc slide_width slide_height slides stdout files];
  rewrite (bindM_ok _ _ _ _ _ (fill_background_W _ _ _ _ _ _ _ _ Hb));
  rewrite (bindM_ok _ _ _ _ _ (fill_title_W _ _ _ _ _ _ _ _ Ht));
  rewrite fill_body_W by exact Hc; rewrite app_nil_r; reflexivity.

Ltac content_branch Hb Ht Hc :=
  unfold _create_content_slide;
  rewrite (bindM_ok _ _ _ _ _ (add_slide_extend 1 _));
  cbn [doc slide_width slide_height slides stdout files];
  rewrite (bindM_ok _ _ _ _ _ (fill_background_W _ _ _ _ _ _ _ _ Hb));
  rewrite (bindM_ok _ _ _ _ _ (fill_title_W _ _ _ _ _ _ _ _ Ht));
  rewrite (bindM_ok _ _ _ _ _ (fill_body_W _ _ _ _ _ _ _ Hc)).

(** A renderable dict descriptor: [create_slide] returns normally, appends
    the slide [rendered_slide] describes and prints only image errors. *)
Lemma create_slide_renderable : forall img d i w,
  renderable d = true ->
  create_slide img d i w = (extend w [rendered_slide img d i] (rendered_log img d i), Ok tt).
Proof.
  intros img d i w H. destruct d as [| | | | |kvs]; try discriminate. cbn [renderable] in H.
  destruct (assoc (s2l "title") kvs) as [[| | |t| |]|] eqn:Ht; try discriminate.
  apply andb_prop in H as [H Hc]. apply andb_prop in H as [H Hs].
  apply andb_prop in H as [_ Hb].
  destruct w as [[sw sh sl] o fl].
  unfold create_slide, bindM at 1, liftR, rendered_slide, rendered_log, slide_type_of, extend.
  cbn [py_get field doc slide_width slide_height slides stdout files].
  rewrite Ht. cbn [str_or].
  destruct (assoc (s2l "slide_type") kvs) as [ty|]; cbv beta iota;
  match goal with |- context [eq_str ?x (s2l "title")] =>
    destruct (eq_str x (s2l "title")); [|destruct (eq_str x (s2l "summary"))] end.
  all: try (title_branch Hb Ht;
            destruct (assoc (s2l "subtitle") kvs) as [[| | |u| |]|];
            try discriminate; cbn [text_of str_or];
            unfold bindM, liftR; rewrite modify_slide_W; rewrite app_nil_r; reflexivity).
  all: try summary_branch Hb Ht Hc.
  all: content_branch Hb Ht Hc; destruct (img i); cbn [image_picture image_log].
  all: try (rewrite app_nil_r; reflexivity).
  all: try (rewrite modify_slide_W, app_nil_r; reflexivity).
  all: try (rewrite print_W; reflexivity).
  all: rewrite (bindM_ok _ _ _ _ _ (modify_slide_W _ _ _ _ _ _ _)), print_W; reflexivity.
Qed.

Lemma extend_extend : forall w a b o1 o2,
  extend (extend w a o1) b o2 = extend w (a ++ b) (o1 ++ o2).
Proof. intros; unfold extend; simpl; rewrite !app_assoc; reflexivity. Qed.

Lemma extend_nil : forall w, extend w [] [] = w.
Proof. intros [[sw sh sl] o fl]; unfold extend; simpl; rewrite !app_nil_r; reflexivity. Qed.

Lemma slide_loop_renderable : forall img items i w,
  Forall (fun d => renderable d = true) items ->
  slide_loop img items i w =
  (extend w (rendered_slides img items i) (rendered_logs img items i), Ok tt).
Proof.
  intros img items; induction items as [|d r IH]; intros i w H.
  - simpl. rewrite extend_nil. reflexivity.
  - inversion H as [|? ? Hd Hr]; subst. cbn [slide_loop].
    unfold bindM at 1, tryM. rewrite (create_slide_renderable _ _ _ _ Hd).
    rewrite IH by exact Hr. rewrite extend_extend. reflexivity.
Qed.

Lemma create_powerpoint_renderable : forall img data path w l,
  field data (s2l "slides") = Some (JArr l) ->
  Forall (fun d => renderable d = true) l ->
  create_powerpoint img None data path w =
  (let p := mkPres (Inches 10 1) (Inches 15 2) (rendered_slides img l 0) in
   (mkWorld p (stdout w ++ rendered_logs img l 0) (files w ++ [(path, p)]), Ok tt)).
Proof.
  intros img data path w l Hf Hl.
  destruct data as [| | | | |kvs]; try discriminate. cbn [field] in Hf.
  unfold create_powerpoint. cbn [bindM set_doc modify_doc liftR py_getitem].
  rewrite Hf. cbn [py_iter]. unfold bindM at 1.
  rewrite slide_loop_renderable by exact Hl. reflexivity.
Qed.

Lemma rendered_logs_images : forall img items i,
  Forall (fun x => x = s2l "Image error") (rendered_logs img items i).
Proof.
  intros img items; induction items as [|d r IH]; intros i; simpl; [constructor|].
  apply Forall_app; split; [|apply IH].
  unfold rendered_log. destruct (eq_str _ _); [constructor|].
  destruct (eq_str _ _); [constructor|].
  destruct (img i); simpl; repeat constructor.
Qed.

Lemma rendered_slides_app : forall img a b i,
  rendered_slides img (a ++ b) i = rendered_slides img a i ++ rendered_slides img b (i + length a).
Proof.
  intros img a; induction a as [|d a IH]; intros b i; simpl.
  - rewrite Nat.add_0_r; reflexivity.
  - rewrite IH. do 3 f_equal. lia.
Qed.

Lemma fallback_sections_renderable : forall t k cs,
  Forall (fun d => renderable d = true) (fallback_sections t k cs).
Proof. intros t k cs; revert k; induction cs; intros k; simpl; constructor; auto. Qed.

Lemma fallback_slides : forall self topic names,
  field (_create_fallback_content self topic names) (s2l "slides") =
  Some (JArr ([fallback_title_slide topic] ++ fallback_sections topic 0 names
              ++ [fallback_summary_slide])).
Proof. reflexivity. Qed.

Lemma fallback_renderable : forall topic names,
  Forall (fun d => renderable d = true)
    ([fallback_title_slide topic] ++ fallback_sections topic 0 names ++ [fallback_summary_slide]).
Proof.
  intros. apply Forall_app; split; [constructor; [reflexivity|constructor]|].
  apply Forall_app; split; [apply fallback_sections_renderable|constructor; [reflexivity|constructor]].
Qed.

Lemma fallback_sections_titles : forall img t names k j,
  map title_text (rendered_slides img (fallback_sections t k names) j) = map Some names.
Proof. intros img t names; induction names; intros k j; simpl; f_equal; auto. Qed.

Lemma fallback_sections_backgrounds : forall img t names k j,
  map background (rendered_slides img (fallback_sections t k names) j) =
  map (fun i => Some (color_of (nth (i mod 4) fallback_colors []))) (seq k (length names)).
Proof. intros img t names; induction names; intros k j; simpl; f_equal; auto. Qed.

(** *** The pipeline's result *)

Lemma slides_check_false : forall p,
  slides_check p = Ok false -> is_dict p = true /\ has_nonempty_slides p = true.
Proof.
  intros [| | | s | l | kvs] H; cbn [slides_check] in H; try discriminate.
  - destruct (find _ s); discriminate.
  - destruct (existsb _ l); discriminate.
  - unfold has_nonempty_slides, field. split; [reflexivity|].
    destruct (assoc (s2l "slides") kvs) as [v|]; [|discriminate].
    injection H as H. destruct (truthy v); [reflexivity|discriminate].
Qed.

Lemma nonempty_slides_check : forall p,
  has_nonempty_slides p = true -> slides_check p = Ok false.
Proof.
  intros [| | | | | kvs] H; unfold has_nonempty_slides, field in H; try discriminate.
  cbn [slides_check]. destruct (assoc (s2l "slides") kvs) as [v|]; [|discriminate].
  rewrite H. reflexivity.
Qed.

(** *** [create_powerpoint] when it raises *)

Lemma create_powerpoint_err : forall img se data path w w' e,
  create_powerpoint img se data path w = (w', Err e) ->
  files w' = files w /\
  (py_getitem data (s2l "slides") = Err e \/
   (exists sl, py_getitem data (s2l "slides") = Ok sl /\ py_iter sl = Err e) \/
   se = Some e).
Proof.
  intros img se data path w w' e H.
  unfold create_powerpoint in H. cbn [bindM set_doc modify_doc liftR] in H.
  destruct (py_getitem data (s2l "slides")) as [sl|e1] eqn:Hg.
  2: { injection H as <- ->. auto. }
  destruct (py_iter sl) as [items|e1] eqn:Hi.
  2: { injection H as <- ->. eauto 6. }
  cbn in H. unfold bindM in H.
  match type of H with context [slide_loop img items 0 ?x] => set (w0 := x) in H end.
  assert (Hs := grows_slide_loop img items 0 w0).
  assert (Ho := slide_loop_ok img items 0 w0).
  destruct (slide_loop img items 0 w0) as [w1 r] eqn:E; simpl in Ho, Hs; subst r.
  destruct se as [e1|]; simpl in H; [|discriminate]. injection H as <- ->.
  destruct Hs as (_ & _ & _ & H4). subst w0. split; [exact H4|auto].
Qed.

(** *** File names *)

Lemma nat_of_ascii_digit : forall k, k < 10 -> nat_of_ascii (ascii_of_nat (48 + k)) = 48 + k.
Proof. intros k Hk. apply nat_ascii_embedding. lia. Qed.

Lemma digits_go_digits : forall fuel n acc c,
  In c (digits_go fuel n acc) -> In c acc \/ (48 <= nat_of_ascii c <= 57).
Proof.
  induction fuel as [|f IH]; intros n acc c H; simpl in H; [auto|].
  assert (Hd : In c (ascii_of_nat (48 + n mod 10) :: acc) -> In c acc \/ 48 <= nat_of_ascii c <= 57).
  { intros [<-|Hc]; [right|auto]. rewrite nat_of_ascii_digit by (apply Nat.mod_upper_bound; lia).
    pose proof (Nat.mod_upper_bound n 10). lia. }
  destruct (n <? 10); [auto|]. apply IH in H as [H|H]; auto.
Qed.

Lemma str_of_nat_digits : forall n c, In c (str_of_nat n) -> 48 <= nat_of_ascii c <= 57.
Proof.
  intros n c H. apply digits_go_digits in H as [H|H]; [destruct H|exact H].
Qed.

Lemma replace_char_no : forall a b s, a <> b -> ~ In a (replace_char a b s).
Proof.
  intros a b s Hab. unfold replace_char. rewrite in_map_iff. intros [x [Hx _]].
  unfold ascii_eqb in Hx. destruct (ascii_dec x a); congruence.
Qed.

(** *** [generate_presentation] *)

Lemma generate_presentation_none : forall jl ev topic secs key model ss w ss' w',
  generate_presentation jl ev topic secs key model ss w = (ss', w', Ok None) ->
  presentation_generated ss' = presentation_generated ss /\
  generated_file_path ss' = generated_file_path ss /\
  generating ss' = false /\
  errors_shown ss' = errors_shown ss ++ [s2l "Error generating presentation"] /\
  (forall e, groq_init ev = Err e -> w' = w).
Proof.
  intros jl ev topic secs key model ss w ss' w' H.
  unfold generate_presentation in H.
  destruct (groq_init ev) as [u|e] eqn:Hg; cbv beta iota zeta in H.
  - match type of H with
    | context [create_presentation ?a ?b ?c ?d ?f ?g w] =>
        destruct (create_presentation a b c d f g w) as [w1 [p|e]]
    end; [inversion H|].
    injection H as <- <-. simpl. repeat split; auto. intros e' He'; discriminate.
  - injection H as <- <-. simpl. repeat split; auto.
Qed.

(** *** The session and the section inputs *)

Lemma list_set_length : forall {A} (l : list A) i x, length (list_set l i x) = length l.
Proof. intros A l; induction l as [|y r IH]; intros [|i] x; simpl; auto. Qed.

Lemma list_set_nth_eq : forall {A} (l : list A) i x d, i < length l -> nth i (list_set l i x) d = x.
Proof. intros A l; induction l as [|y r IH]; intros [|i] x d H; simpl in *; try lia; auto with arith. Qed.

Lemma list_set_nth_neq : forall {A} (l : list A) i k x d, k <> i -> nth k (list_set l i x) d = nth k l d.
Proof.
  intros A l; induction l as [|y r IH]; intros [|i] [|k] x d H; simpl; auto; try lia;
    apply IH; lia.
Qed.

Lemma list_set_firstn : forall {A} (l : list A) i x, i < length l ->
  firstn (S i) (list_set l i x) = firstn i l ++ [x].
Proof.
  intros A l; induction l as [|y r IH]; intros [|i] x H; simpl in *; try lia; auto.
  rewrite IH by lia. reflexivity.
Qed.

Lemma firstn_all_eq : forall {A} (l : list A) n, length l = n -> firstn n l = l.
Proof. intros A l n <-. apply firstn_all. Qed.

Lemma section_inputs_spec : forall widget m j cs acc,
  length cs = j + m -> acc = firstn j cs ->
  let r := section_inputs widget (seq j m) cs acc in
  fst r = snd r /\ length (snd r) = j + m /\ firstn j (snd r) = acc /\
  (forall k, j <= k < j + m ->
     nth k (snd r) [] = match widget k with Some s => s | None => nth k cs [] end).
Proof.
  intros widget m; induction m as [|m IH]; intros j cs acc Hl Ha; simpl.
  - rewrite Nat.add_0_r in Hl. rewrite firstn_all_eq in Ha by exact Hl. subst acc.
    split; [reflexivity|]. split; [lia|]. split; [apply firstn_all_eq; exact Hl|intros; lia].
  - assert (Hj : (j <? length cs) = true) by (apply Nat.ltb_lt; lia). rewrite Hj.
    set (sec := match widget j with Some s => s | None => nth j cs [] end).
    destruct (IH (S j) (list_set cs j sec) (acc ++ [sec])) as (H1 & H2 & H3 & H4).
    { rewrite list_set_length; lia. }
    { rewrite list_set_firstn by lia. congruence. }
    assert (Hacc : length acc = j) by (rewrite Ha, length_firstn; lia).
    set (X := snd (section_inputs widget (seq (S j) m) (list_set cs j sec) (acc ++ [sec]))) in *.
    split; [exact H1|]. split; [lia|]. split.
    + replace (firstn j X) with (firstn j (firstn (S j) X))
        by (rewrite firstn_firstn, Nat.min_l by lia; reflexivity).
      rewrite H3, <- Hacc, firstn_length_app. reflexivity.
    + intros k Hk. destruct (Nat.eq_dec k j) as [->|Hne].
      * rewrite <- (firstn_skipn (S j) X), H3.
        rewrite app_nth1 by (rewrite length_app, Hacc; simpl; lia).
        rewrite app_nth2 by lia. rewrite Hacc, Nat.sub_diag. reflexivity.
      * rewrite H4 by lia. rewrite list_set_nth_neq by exact Hne. reflexivity.
Qed.

Lemma adjust_sections_length : forall cs n, length (adjust_sections cs n) = n.
Proof.
  intros cs n. unfold adjust_sections.
  destruct (length cs =? n) eqn:E; simpl; [apply Nat.eqb_eq; exact E|].
  destruct (length cs <? n) eqn:L.
  - rewrite length_app, length_map, length_seq. apply Nat.ltb_lt in L. lia.
  - rewrite length_firstn. apply Nat.ltb_ge in L. lia.
Qed.

(** *** The prompt's section list *)

Lemma find_single_none : forall c x, no_char c x = true -> find [c] x = None.
Proof.
  intros c x; induction x as [|d x IH]; intros H; simpl in *; [reflexivity|].
  apply andb_prop in H as [H1 H2]. rewrite ascii_eqb_sym, (negb_true_iff _) in *.
  rewrite ascii_eqb_sym, H1. simpl. rewrite IH by exact H2. reflexivity.
Qed.

Lemma join_length : forall c l, l <> [] -> length l <= S (length (join [c] l)).
Proof.
  intros c l; induction l as [|x [|y r] IH]; intros H; [congruence|simpl; lia|].
  change (join [c] (x :: y :: r)) with (x ++ [c] ++ join [c] (y :: r)).
  rewrite !length_app. specialize (IH ltac:(discriminate)). simpl in *. lia.
Qed.

Lemma split_go_join : forall c l fuel,
  Forall (fun x => no_char c x = true) l -> length l <= S fuel -> l <> [] ->
  split_go fuel [c] (join [c] l) = l.
Proof.
  intros c l; induction l as [|x [|y r] IH]; intros fuel Hf Hl Hn; [congruence| |].
  - inversion Hf; subst. destruct fuel; simpl; [reflexivity|].
    rewrite find_single_none by assumption. reflexivity.
  - inversion Hf as [|? ? Hx Hr]; subst.
    destruct fuel as [|f]; [simpl in Hl; lia|].
    change (join [c] (x :: y :: r)) with (x ++ [c] ++ join [c] (y :: r)).
    set (J := join [c] (y :: r)).
    cbn [split_go]. change ([c] ++ J) with (c :: J).
    rewrite find_single by exact Hx. rewrite firstn_length_app.
    replace (length x + length [c]) with (length (x ++ [c])) by (rewrite length_app; reflexivity).
    replace (x ++ c :: J) with ((x ++ [c]) ++ J) by (rewrite <- app_assoc; reflexivity).
    rewrite skipn_length_app. subst J.
    rewrite IH; [reflexivity|exact Hr|simpl in *; lia|discriminate].
Qed.

(* ------------------------------------------------------------------ *)
(** ** Further properties: statements *)

(** [generate_presentation_content] always returns a dict whose [slides]
    key is present and truthy: the LLM's parsed answer only when it passes
    the structural check, the fallback deck otherwise. *)
Theorem generate_presentation_content_has_slides :
  forall json_loads self topic content_names llm,
    exists v, generate_presentation_content json_loads self topic content_names llm = Ok v /\
              is_dict v = true /\ has_nonempty_slides v = true.
Proof.
  intros jl self topic names llm.
  unfold generate_presentation_content, try_except.
  destruct (generate_try jl llm) as [v|e] eqn:E.
  - exists v. split; [reflexivity|].
    unfold generate_try, bind in E.
    destruct llm as [e|[raw|]]; try discriminate.
    destruct (extract_json raw) as [c|e]; try discriminate.
    destruct (loads jl c) as [p|e]; try discriminate.
    destruct (slides_check p) as [[]|e] eqn:Hs; try discriminate.
    injection E as <-. apply slides_check_false; exact Hs.
  - eexists; split; [reflexivity|]. split; reflexivity.
Qed.

(** An LLM answer that parses and has a truthy [slides] is returned as
    parsed, unchanged. *)
Theorem generate_presentation_content_accepts :
  forall json_loads self topic content_names raw v,
    parse_response json_loads raw = Ok v -> has_nonempty_slides v = true ->
    generate_presentation_content json_loads self topic content_names (LLMContent (Some raw))
    = Ok v.
Proof.
  intros jl self topic names raw v Hp Hs.
  unfold generate_presentation_content, try_except, generate_try, bind.
  unfold parse_response, bind in Hp.
  destruct (extract_json raw) as [c|e]; [|discriminate].
  rewrite Hp, (nonempty_slides_check v Hs). reflexivity.
Qed.

Lemma generate_presentation_content_accepts_witness :
  generate_presentation_content JsonFragment.loads_fragment gen0 cloud_topic cloud_sections
    (LLMContent (Some one_slide_response))
  = Ok (JObj [(s2l "slides", JArr [JObj [(s2l "slide_type", JStr (s2l "title"));
                                         (s2l "title", JStr (s2l "Only"))]])]).
Proof.
  apply generate_presentation_content_accepts; vm_compute; reflexivity.
Defined.

(** [create_slide] on a renderable descriptor returns normally and appends
    one slide: layout 0 for [title] slides, 1 otherwise; the background
    named by [background_color] (default blue, light_blue or white by
    type, white for an unknown name); the [title]; for a title slide the
    [subtitle] (default ''); for other slides one paragraph per item of
    [content], per character when it is a str, per key when it is a dict;
    a picture on content slides when the image was embedded. It prints only
    image errors. *)
Theorem create_slide_renders :
  forall img d i w,
    renderable d = true ->
    create_slide img d i w = (extend w [rendered_slide img d i] (rendered_log img d i), Ok tt).
Proof. intros; apply create_slide_renderable; assumption. Qed.

Lemma create_slide_renders_witness :
  create_slide (fun _ => Embedded) string_content_slide 2 world0 =
  (extend world0 [mkSlide 1 (Some white) (Some (s2l "Tools")) None [s2l "A"; s2l "I"] true] [],
   Ok tt).
Proof. apply (create_slide_renders (fun _ => Embedded) string_content_slide 2 world0). reflexivity. Defined.

(** When every descriptor of [slides] is renderable, [create_powerpoint]
    logs no slide error, and saves a 10in x 7.5in document holding the
    rendered slides in the order of the list. *)
Theorem create_powerpoint_renders_all :
  forall img data path w l,
    field data (s2l "slides") = Some (JArr l) ->
    Forall (fun d => renderable d = true) l ->
    create_powerpoint img None data path w =
    (let p := mkPres (Inches 10 1) (Inches 15 2) (rendered_slides img l 0) in
     (mkWorld p (stdout w ++ rendered_logs img l 0) (files w ++ [(path, p)]), Ok tt)).
Proof. intros; apply create_powerpoint_renderable; assumption. Qed.

Lemma create_powerpoint_renders_all_witness :
  create_powerpoint (fun _ => NoImage) None (_create_fallback_content gen0 cloud_topic cloud_sections)
    (s2l "deck.pptx") world0 =
  (let p := mkPres (Inches 10 1) (Inches 15 2)
              (rendered_slides (fun _ => NoImage)
                 ([fallback_title_slide cloud_topic] ++ fallback_sections cloud_topic 0 cloud_sections
                  ++ [fallback_summary_slide]) 0) in
   (mkWorld p (stdout world0 ++ rendered_logs (fun _ => NoImage)
                 ([fallback_title_slide cloud_topic] ++ fallback_sections cloud_topic 0 cloud_sections
                  ++ [fallback_summary_slide]) 0)
            (files world0 ++ [(s2l "deck.pptx", p)]), Ok tt)).
Proof.
  apply create_powerpoint_renders_all; [reflexivity|].
  repeat constructor.
Defined.

(** The fallback deck always renders without a slide error: the saved
    document's titles are the topic, the section names in order and
    "Conclusion & Recommendations"; its backgrounds are blue, then the
    sections' colors cycling white, light_blue, white, gradient, then blue;
    the only lines printed are image errors. *)
Theorem fallback_deck_renders :
  forall img self topic content_names path w,
    exists w',
      create_powerpoint img None (_create_fallback_content self topic content_names) path w
        = (w', Ok tt) /\
      files w' = files w ++ [(path, doc w')] /\
      map title_text (slides (doc w')) =
        map Some ([topic] ++ content_names ++ [s2l "Conclusion & Recommendations"]) /\
      map background (slides (doc w')) =
        map (fun c => Some (color_of c))
            ([s2l "blue"] ++ map (fun i => nth (i mod 4) fallback_colors [])
                                 (seq 0 (length content_names)) ++ [s2l "blue"]) /\
      Forall (fun line => line = s2l "Image error") (skipn (length (stdout w)) (stdout w')).
Proof.
  intros img self topic names path w.
  rewrite (create_powerpoint_renderable img _ path w _ (fallback_slides self topic names)
             (fallback_renderable topic names)).
  eexists; split; [reflexivity|]. cbn [doc slides files stdout].
  split; [reflexivity|].
  rewrite !rendered_slides_app, !map_app. split; [|split].
  - rewrite fallback_sections_titles. reflexivity.
  - rewrite fallback_sections_backgrounds, map_map. reflexivity.
  - rewrite skipn_app, skipn_all, Nat.sub_diag. simpl. apply rendered_logs_images.
Qed.

(** A descriptor that is not a dict (a str or a number in [slides]) makes
    [create_slide] raise before adding a slide: the state is unchanged. *)
Theorem create_slide_non_dict :
  forall img d i w, is_dict d = false -> create_slide img d i w = (w, Err AttributeError).
Proof. intros img [| | | | |kvs] i w H; try discriminate; reflexivity. Qed.

Lemma create_slide_non_dict_witness :
  create_slide (fun _ => NoImage) (JStr (s2l "Overview")) 0 world0 = (world0, Err AttributeError).
Proof. apply create_slide_non_dict. reflexivity. Defined.

(** When [create_powerpoint] raises, the cause is a missing or
    non-subscriptable [slides], a non-iterable [slides], or the save. When
    the save itself does not fail, a raise comes from [slides], before the
    save, and no file has been written. *)
Theorem create_powerpoint_raises_no_file :
  forall img save_error data path w w' e,
    create_powerpoint img save_error data path w = (w', Err e) ->
    (py_getitem data (s2l "slides") = Err e \/
     (exists sl, py_getitem data (s2l "slides") = Ok sl /\ py_iter sl = Err e) \/
     save_error = Some e) /\
    (save_error = None -> files w' = files w).
Proof.
  intros img se data path w w' e H.
  destruct (create_powerpoint_err img se data path w w' e H) as [Hf Hc].
  split; [exact Hc|intros _; exact Hf].
Qed.

Lemma create_powerpoint_raises_no_file_witness :
  (py_getitem (JObj [(s2l "title", JStr (s2l "x"))]) (s2l "slides") = Err (KeyError (s2l "slides")) \/
   (exists sl, py_getitem (JObj [(s2l "title", JStr (s2l "x"))]) (s2l "slides") = Ok sl /\
               py_iter sl = Err (KeyError (s2l "slides"))) \/
   None = Some (KeyError (s2l "slides"))) /\
  ((None : option exn) = None ->
   files (fst (create_powerpoint (fun _ => NoImage) None (JObj [(s2l "title", JStr (s2l "x"))])
                 (s2l "deck.pptx") world0)) = files world0).
Proof.
  apply (create_powerpoint_raises_no_file (fun _ => NoImage) None
           (JObj [(s2l "title", JStr (s2l "x"))]) (s2l "deck.pptx") world0
           (fst (create_powerpoint (fun _ => NoImage) None (JObj [(s2l "title", JStr (s2l "x"))])
                   (s2l "deck.pptx") world0))).
  vm_compute. reflexivity.
Defined.

(** [create_presentation] returns the name it was given when that is
    non-empty; otherwise exactly "professional_<topic>_<unix time>.pptx"
    with the topic's spaces replaced by '_', which starts with
    "professional_" and contains no space. *)
Theorem create_presentation_output_name :
  forall json_loads ev self topic content_names output_file w w' path,
    create_presentation json_loads ev self topic content_names output_file w = (w', Ok path) ->
    (forall f, output_file = Some f -> f <> [] -> path = f) /\
    ((output_file = None \/ output_file = Some []) ->
     path = s2l "professional_" ++ replace_char " "%char "_"%char topic ++ s2l "_"
            ++ str_of_nat (unix_time ev) ++ s2l ".pptx" /\
     starts_with (s2l "professional_") path = true /\
     ~ In " "%char path).
Proof.
  intros jl ev self topic names out w w' path H.
  unfold create_presentation, bindM, liftR in H.
  destruct (generate_presentation_content jl self topic names (llm ev)) as [data|e];
    [|discriminate].
  cbv beta iota zeta in H.
  match type of H with
  | context [create_powerpoint ?a ?b ?c ?d w] =>
      destruct (create_powerpoint a b c d w) as [w1 [[]|e]]; [|discriminate]
  end.
  cbv beta iota zeta in H. unfold retM in H. injection H as _ <-.
  split.
  - intros f -> Hf. destruct f; [congruence|reflexivity].
  - intros Ho.
    assert (Hd : forall x, match out with Some ((_ :: _) as f) => f | _ => x end = x)
      by (destruct Ho as [-> | ->]; reflexivity).
    rewrite Hd.
    split; [reflexivity|].
    split; [exact (starts_with_app (s2l "professional_") _)|].
    + change (~ In " "%char (s2l "professional_" ++ replace_char " "%char "_"%char topic
                             ++ s2l "_" ++ str_of_nat (unix_time ev) ++ s2l ".pptx")).
      rewrite !in_app_iff. intros [H|[H|[H|[H|H]]]].
      * simpl in H. repeat (destruct H as [H|H]; [discriminate|]). exact H.
      * exact (replace_char_no " "%char "_"%char topic ltac:(discriminate) H).
      * simpl in H. destruct H as [H|H]; [discriminate|exact H].
      * apply str_of_nat_digits in H. change (nat_of_ascii " "%char) with 32 in H. lia.
      * simpl in H. repeat (destruct H as [H|H]; [discriminate|]). exact H.
Qed.

Lemma create_presentation_output_name_witness :
  (forall f, (None : option str) = Some f -> f <> [] ->
             s2l "professional_Cloud_Security_42.pptx" = f) /\
  (((None : option str) = None \/ (None : option str) = Some []) ->
   s2l "professional_Cloud_Security_42.pptx" =
     s2l "professional_" ++ replace_char " "%char "_"%char cloud_topic ++ s2l "_"
     ++ str_of_nat (unix_time (env_with (LLMRaises (ExternalError (s2l "connection refused")))))
     ++ s2l ".pptx" /\
   starts_with (s2l "professional_") (s2l "professional_Cloud_Security_42.pptx") = true /\
   ~ In " "%char (s2l "professional_Cloud_Security_42.pptx")).
Proof.
  apply (create_presentation_output_name JsonFragment.loads_fragment
           (env_with (LLMRaises (ExternalError (s2l "connection refused"))))
           gen0 cloud_topic cloud_sections None world0
           (fst (create_presentation JsonFragment.loads_fragment
                   (env_with (LLMRaises (ExternalError (s2l "connection refused"))))
                   gen0 cloud_topic cloud_sections None world0))).
  vm_compute. reflexivity.
Defined.

(** When [generate_presentation] fails (it returns [None]), the session
    keeps [presentation_generated] and [generated_file_path] of the previous
    run, so an earlier deck stays offered for download; [generating] is
    reset and exactly one error message is shown. If the Groq client cannot be
    created, nothing was rendered or written. *)
Theorem generate_presentation_failure_keeps_previous :
  forall json_loads ev topic content_sections api_key model ss w ss' w',
    generate_presentation json_loads ev topic content_sections api_key model ss w
      = (ss', w', Ok None) ->
    presentation_generated ss' = presentation_generated ss /\
    generated_file_path ss' = generated_file_path ss /\
    generating ss' = false /\
    (exists msg, errors_shown ss' = errors_shown ss ++ [msg]) /\
    (forall e, groq_init ev = Err e -> w' = w).
Proof.
  intros jl ev topic secs key model ss w ss' w' H.
  destruct (generate_presentation_none jl ev topic secs key model ss w ss' w' H)
    as (H1 & H2 & H3 & H4 & H5).
  repeat split; try assumption. eexists; exact H4.
Qed.

Lemma generate_presentation_failure_keeps_previous_witness :
  presentation_generated (fst (fst (generate_presentation JsonFragment.loads_fragment env_save_fails
     cloud_topic cloud_sections (s2l "gsk_0123456789") (s2l "llama3-70b-8192")
     prior_session world0))) = true /\
  generated_file_path (fst (fst (generate_presentation JsonFragment.loads_fragment env_save_fails
     cloud_topic cloud_sections (s2l "gsk_0123456789") (s2l "llama3-70b-8192")
     prior_session world0))) = Some (s2l "professional_Old_20261016_090000.pptx") /\
  generating (fst (fst (generate_presentation JsonFragment.loads_fragment env_save_fails
     cloud_topic cloud_sections (s2l "gsk_0123456789") (s2l "llama3-70b-8192")
     prior_session world0))) = false /\
  (exists msg, errors_shown (fst (fst (generate_presentation JsonFragment.loads_fragment
     env_save_fails cloud_topic cloud_sections (s2l "gsk_0123456789") (s2l "llama3-70b-8192")
     prior_session world0))) = [] ++ [msg]) /\
  (forall e, groq_init env_save_fails = Err e ->
     snd (fst (generate_presentation JsonFragment.loads_fragment env_save_fails
        cloud_topic cloud_sections (s2l "gsk_0123456789") (s2l "llama3-70b-8192")
        prior_session world0)) = world0).
Proof.
  apply (generate_presentation_failure_keeps_previous JsonFragment.loads_fragment env_save_fails
           cloud_topic cloud_sections (s2l "gsk_0123456789") (s2l "llama3-70b-8192")
           prior_session world0).
  vm_compute. reflexivity.
Defined.

(** [initialize_session_state] sets each missing key to its default
    (False, the five default sections, False, None), keeps every key
    already set, and running it again changes nothing. *)
Theorem initialize_session_state_spec :
  forall ss,
    let ss' := initialize_session_state ss in
    st_presentation_generated ss' =
      Some (match st_presentation_generated ss with Some b => b | None => false end) /\
    st_content_sections ss' =
      Some (match st_content_sections ss with Some l => l | None => default_sections end) /\
    st_generating ss' = Some (match st_generating ss with Some b => b | None => false end) /\
    st_generated_file_path ss' =
      Some (match st_generated_file_path ss with Some p => p | None => None end) /\
    initialize_session_state ss' = ss'.
Proof.
  intros [[a|] [b|] [c|] [d|]]; repeat split; reflexivity.
Qed.

(** The section-count adjustment of [main] gives a list of exactly
    [num_sections] names: the existing names first, then "Section {i+1}"
    for each new position [i]. *)
Theorem adjust_sections_spec :
  forall cs num_sections,
    length (adjust_sections cs num_sections) = num_sections /\
    (forall k, k < length cs -> k < num_sections ->
               nth k (adjust_sections cs num_sections) [] = nth k cs []) /\
    (forall k, length cs <= k < num_sections ->
               nth k (adjust_sections cs num_sections) [] = section_name k).
Proof.
  intros cs n. split; [apply adjust_sections_length|].
  unfold adjust_sections.
  destruct (length cs =? n) eqn:E; cbn [negb].
  { apply Nat.eqb_eq in E. split; [reflexivity|intros; lia]. }
  destruct (length cs <? n) eqn:L.
  - split; intros k Hk.
    + intros _. apply app_nth1; exact Hk.
    + rewrite app_nth2 by lia.
      rewrite (nth_indep _ [] (section_name 0)) by (rewrite length_map, length_seq; lia).
      rewrite map_nth, seq_nth by lia. f_equal. lia.
  - apply Nat.ltb_ge in L. split; intros k Hk.
    + intros Hn. rewrite nth_firstn. apply Nat.ltb_lt in Hn. rewrite Hn. reflexivity.
    + lia.
Qed.

(** One run of the section inputs of [main]: [content_sections] has
    [num_sections] entries, each the text typed in its input or else the
    adjusted session name, and the session list ends equal to it. *)
Theorem sections_run_spec :
  forall widget cs num_sections,
    let r := sections_run widget cs num_sections in
    fst r = snd r /\ length (snd r) = num_sections /\
    (forall k, k < num_sections ->
       nth k (snd r) [] =
       match widget k with Some s => s | None => nth k (adjust_sections cs num_sections) [] end).
Proof.
  intros widget cs n. unfold sections_run.
  destruct (section_inputs_spec widget n 0 (adjust_sections cs n) [])
    as (H1 & H2 & _ & H4).
  - rewrite adjust_sections_length. reflexivity.
  - reflexivity.
  - split; [exact H1|]. split; [exact H2|]. intros k Hk. apply H4. lia.
Qed.

(** When no name contains a newline, the section list of the prompt has
    one line "- <name>" per requested section, in order; for no sections it
    is the empty string, which splits into a single empty line. *)
Theorem content_list_lines :
  forall content_names,
    Forall (fun name => no_char (ascii_of_nat 10) name = true) content_names ->
    split (content_list content_names) [ascii_of_nat 10] =
    match content_names with
    | [] => [[]]
    | _ => map (fun name => s2l "- " ++ name) content_names
    end.
Proof.
  intros names Hf. destruct names as [|n0 r]; [reflexivity|].
  change (split (content_list (n0 :: r)) [ascii_of_nat 10] =
          map (fun name => s2l "- " ++ name) (n0 :: r)).
  remember (n0 :: r) as names eqn:En.
  assert (Hn : names <> []) by (rewrite En; discriminate). clear En.
  unfold content_list, split. apply split_go_join.
  - apply Forall_map. eapply Forall_impl; [|exact Hf]. intros x Hx.
    unfold no_char in *. rewrite forallb_app. rewrite Hx. reflexivity.
  - pose proof (join_length (ascii_of_nat 10) (map (fun name => s2l "- " ++ name) names)) as J.
    rewrite length_map in J.
    assert (Hm : map (fun name => s2l "- " ++ name) names <> [])
      by (destruct names; [congruence|discriminate]).
    specialize (J Hm). rewrite length_map. lia.
  - destruct names; [congruence|discriminate].
Qed.

Lemma content_list_lines_witness :
  split (content_list cloud_sections) [ascii_of_nat 10] =
  [s2l "- Overview"; s2l "- Threats"; s2l "- Defenses"].
Proof. apply content_list_lines; repeat constructor. Defined.
